(** * FileVault authorized restart (munkilib/authrestart.py)

    A shallow embedding of [authrestart.py] and the properties of its
    probes, its credential lookup, its precondition gate, its executor and
    its top-level restart flow.

    The module is Python 2.  Every function of the module talks to the
    outside: it reads preferences, asks for the OS version, runs
    [fdesetup], reads a property list, writes to the display log.  The
    outside is a [World] (what each collaborator answers), and a function
    of the module is a computation that reads the world, appends the
    calls it makes to a trace of [event]s, and either returns a value or
    raises a Python exception.

    Python 2 has two kinds of string.  What a process prints and the
    literals of the module are byte strings ([str]), here [string]; what
    preferences and property lists hold are unicode strings, here
    [text], a list of code points. *)

From stdpp Require Import base option list strings gmap.
From Stdlib Require Import ZArith NArith Lia Ascii String.

Set Warnings "-register-all".
Local Open Scope string_scope.
Local Open Scope list_scope.
Local Open Scope Z_scope.

(** ** Python values *)

(** A unicode string, by its code points. *)
Definition text : Type := list N.

(** [u"..."]: the unicode string of an ASCII literal. *)
Definition u (s : string) : text := map N_of_ascii (list_ascii_of_string s).

(** The values preferences and property lists hold.  Their strings are
    unicode strings; the keys of a dictionary are kept as the bytes of
    their UTF-8 encoding, which is all a lookup by an ASCII literal
    sees. *)
Inductive value : Type :=
| VNone
| VBool (b : bool)
| VInt (z : Z)
| VStr (s : text)
| VList (l : list value)
| VDict (d : list (string * value)).

(** [bool(s)] for a unicode string: non-empty. *)
Definition text_truthy (s : text) : bool :=
  match s with
  | [] => false
  | _ :: _ => true
  end.

(** [bool(v)]: Python truthiness. *)
Definition truthy (v : value) : bool :=
  match v with
  | VNone => false
  | VBool b => b
  | VInt z => negb (z =? 0)
  | VStr s => text_truthy s
  | VList l => match l with [] => false | _ => true end
  | VDict d => match d with [] => false | _ => true end
  end.

(** [bool(s)] for a byte string: non-empty. *)
Definition str_truthy (s : string) : bool := negb (String.eqb s "").

(** ** Strings *)

(** [sub in s] on byte strings: [sub] occurs in [s] as a contiguous
    run. *)
Fixpoint str_in (sub s : string) : bool :=
  String.prefix sub s ||
  match s with
  | EmptyString => false
  | String _ s' => str_in sub s'
  end.

(** [unicode.isspace] of one character, and so the characters
    [unicode.strip()] removes: U+0009 to U+000D, U+001C to U+0020,
    U+0085, U+00A0, U+1680, U+180E, U+2000 to U+200A, U+2028, U+2029,
    U+202F, U+205F and U+3000 (the table of Python 2.7). *)
Definition is_space (c : N) : bool :=
  ((9 <=? c) && (c <=? 13)
   || (28 <=? c) && (c <=? 32)
   || (c =? 133) || (c =? 160) || (c =? 5760) || (c =? 6158)
   || (8192 <=? c) && (c <=? 8202)
   || (c =? 8232) || (c =? 8233) || (c =? 8239) || (c =? 8287)
   || (c =? 12288))%N.

Fixpoint lstrip (s : text) : text :=
  match s with
  | [] => []
  | c :: s' => if is_space c then lstrip s' else s
  end.

Fixpoint rstrip (s : text) : text :=
  match s with
  | [] => []
  | c :: s' =>
      match rstrip s' with
      | [] => if is_space c then [] else [c]
      | r => c :: r
      end
  end.

(** [s.strip()] *)
Definition strip (s : text) : text := rstrip (lstrip s).

(** Every character of [s] is whitespace. *)
Fixpoint all_space (s : text) : bool :=
  match s with
  | [] => true
  | c :: s' => is_space c && all_space s'
  end.

(** ** Tuples of integers *)

(** [a >= b] on tuples of integers: the first position where they differ
    decides; when one is a prefix of the other the longer is the greater. *)
Fixpoint tuple_ge (a b : list Z) : bool :=
  match a, b with
  | _, [] => true
  | [], _ :: _ => false
  | x :: a', y :: b' =>
      if x =? y then tuple_ge a' b' else y <? x
  end.

(** ** Exceptions, events, the world *)

Inductive exn : Type :=
| OSError
| CalledProcessError (returncode : Z) (output : string)
| NSPropertyListSerializationException
| KeyError (key : string)
| TypeError
| AttributeError.

Inductive level : Type := Debug1 | Info | Warning | Error.

(** What the module does to the outside, in order: the calls it makes.
    [CheckOutput], [Popen] and [Call] are the calls of
    [subprocess.check_output], [subprocess.Popen] and [subprocess.call],
    whether or not the process could be started; [Communicate] is the
    call of [communicate] on the process started for [proc]. *)
Inductive event : Type :=
| Display (lvl : level) (msg : string) (args : list value)
| Pref (pref_name : string)
| GetOsVersion
| CheckOutput (cmd : list string)
| ReadPlist (filepath : value)
| WritePlistToString (data : value)
| Popen (cmd : list string)
| Communicate (proc : list string) (input : string)
| Call (cmd : list string).

(** What the outside answers.
    - [os_version]: [osutils.getOsVersion(as_tuple=True)];
    - [preferences]: the preference store behind [prefs.pref];
    - [starts cmd]: the process for [cmd] can be started; where it
      cannot (no such program, no permission, no resources) the
      [subprocess] function that was to start it raises [OSError];
    - [run cmd]: exit status and captured output (stderr folded into
      stdout) of [cmd], once started, for [subprocess.check_output];
    - [plists path]: the document [FoundationPlist.readPlist] parses at
      [path], or [None] where it raises
      [NSPropertyListSerializationException];
    - [serialize]: [FoundationPlist.writePlistToString];
    - [communicate cmd input]: stdout and stderr of [cmd], once started,
      fed [input];
    - [retcode cmd]: exit status of [cmd], once started, for
      [subprocess.call]. *)
Record World : Type := {
  os_version : list Z;
  preferences : gmap string value;
  starts : list string → bool;
  run : list string → Z * string;
  plists : value → option value;
  serialize : value → string;
  communicate : list string → string → string * string;
  retcode : list string → Z
}.

Inductive result (A : Type) : Type :=
| Ret (a : A)
| Raise (e : exn).
Arguments Ret {A} a.
Arguments Raise {A} e.

(** A computation of the module: the calls made, and how it ends. *)
Definition M (A : Type) : Type := World → list event * result A.

Definition trace {A} (m : M A) (w : World) : list event := (m w).1.
Definition outcome {A} (m : M A) (w : World) : result A := (m w).2.

#[global] Instance M_ret : MRet M := λ A a _, ([], Ret a).

#[global] Instance M_bind : MBind M := λ A B f m w,
  match m w with
  | (t, Ret a) => let '(t', r) := f a w in (t ++ t', r)
  | (t, Raise e) => (t, Raise e)
  end.

#[global] Instance M_fmap : FMap M := λ A B f m, a ← m ; mret (f a).

Definition raise {A} (e : exn) : M A := λ _, ([], Raise e).
Definition emit (e : event) : M unit := λ _, ([e], Ret tt).
Definition ask {A} (f : World → A) : M A := λ w, ([], Ret (f w)).

(** [try: body / except: handler / (after the try) rest].  The handler
    is tried on an exception of [body] only; where it answers [None] the
    exception is not one it names and goes on up. *)
Definition try_except {A B} (body : M A) (handler : exn → option (M B))
    (rest : A → M B) : M B := λ w,
  match body w with
  | (t, Ret a) => let '(t', r) := rest a w in (t ++ t', r)
  | (t, Raise e) =>
      match handler e with
      | Some h => let '(t', r) := h w in (t ++ t', r)
      | None => (t, Raise e)
      end
  end.

(** ** The collaborators *)

Module display.
Definition display_debug1 (msg : string) (args : list value) : M unit :=
  emit (Display Debug1 msg args).
Definition display_info (msg : string) (args : list value) : M unit :=
  emit (Display Info msg args).
Definition display_warning (msg : string) (args : list value) : M unit :=
  emit (Display Warning msg args).
Definition display_error (msg : string) (args : list value) : M unit :=
  emit (Display Error msg args).
End display.

Module osutils.
Definition getOsVersion : M (list Z) :=
  emit GetOsVersion ;; ask os_version.
End osutils.

(** What the preference store answers for a name; a preference that is
    not set reads as [None]. *)
Definition pref_value (w : World) (name : string) : value :=
  default VNone (preferences w !! name).
Arguments pref_value : simpl never.

Module prefs.
Definition pref (pref_name : string) : M value :=
  emit (Pref pref_name) ;; ask (λ w, pref_value w pref_name).
End prefs.

Module subprocess.
(** Starts the process or raises [OSError]; returns the output of the
    process; a non-zero exit status raises [CalledProcessError] carrying
    the status and the output. *)
Definition check_output (cmd : list string) : M string :=
  emit (CheckOutput cmd) ;;
  started ← ask (λ w, starts w cmd) ;
  if started : bool then
    '(rc, out) ← ask (λ w, run w cmd) ;
    if rc =? 0 then mret out else raise (CalledProcessError rc out)
  else raise OSError.

(** [Popen(cmd, stdout=PIPE, stdin=PIPE, stderr=PIPE)]: starts the
    process or raises [OSError]; the process object is known here by
    its command. *)
Definition Popen (cmd : list string) : M (list string) :=
  emit (Popen cmd) ;;
  started ← ask (λ w, starts w cmd) ;
  if started : bool then mret cmd else raise OSError.

(** [proc.communicate(input=input)] *)
Definition communicate (proc : list string) (input : string)
    : M (string * string) :=
  emit (Communicate proc input) ;; ask (λ w, communicate w proc input).

(** Starts the process or raises [OSError]; returns its exit status. *)
Definition call (cmd : list string) : M Z :=
  emit (Call cmd) ;;
  started ← ask (λ w, starts w cmd) ;
  if started : bool then ask (λ w, retcode w cmd) else raise OSError.
End subprocess.

Module FoundationPlist.
Definition readPlist (filepath : value) : M value :=
  emit (ReadPlist filepath) ;;
  o ← ask (λ w, plists w filepath) ;
  match o with
  | Some doc => mret doc
  | None => raise NSPropertyListSerializationException
  end.

Definition writePlistToString (data : value) : M string :=
  emit (WritePlistToString data) ;; ask (λ w, serialize w data).
End FoundationPlist.

(** [obj[key]] with a string key.  A dictionary answers with its first
    entry under the key or raises [KeyError]; nothing else of a property
    list can be indexed by a string. *)
Fixpoint dict_get (d : list (string * value)) (key : string) : option value :=
  match d with
  | [] => None
  | (k, v) :: d' => if String.eqb k key then Some v else dict_get d' key
  end.

Definition getitem (obj : value) (key : string) : M value :=
  match obj with
  | VDict d =>
      match dict_get d key with
      | Some v => mret v
      | None => raise (KeyError key)
      end
  | _ => raise TypeError
  end.

(** [obj.strip()]: only a string has the method. *)
Definition py_strip (obj : value) : M text :=
  match obj with
  | VStr s => mret (strip s)
  | _ => raise AttributeError
  end.

(** [a and b]: [b] is evaluated only where [a] is truthy, and the value
    is the operand that decided. *)
Definition py_and (a b : M value) : M value :=
  x ← a ; if truthy x then b else mret x.

(** ** authrestart.py *)

Import display.

Definition active_cmd : list string := ["/usr/bin/fdesetup"; "isactive"].
Definition support_cmd : list string :=
  ["/usr/bin/fdesetup"; "supportsauthrestart"].
Definition authrestart_cmd : list string :=
  ["/usr/bin/fdesetup"; "authrestart"; "-inputplist"].
Definition shutdown_cmd : list string := ["/sbin/shutdown"; "-r"; "now"].

(** Check if FileVault is enabled; returns True or False accordingly. *)
Definition filevault_is_active : M bool :=
  display_debug1 "Checking if FileVault is enabled..." [] ;;
  try_except
    (subprocess.check_output active_cmd)
    (λ exc,
       match exc with
       | CalledProcessError _ output =>
           Some
             ((if str_truthy output && str_in "false" output then
                 display_warning "FileVault appears to be disabled..." []
               else if negb (str_truthy output) then
                 display_warning
                   "Encountered problem determining FileVault status..." []
               else
                 display_warning output []) ;;
              mret false)
       | _ => None
       end)
    (λ is_active,
       if str_in "true" is_active then mret true else mret false).

(** Checks if an Authorized Restart is supported; returns True or False
    accordingly. *)
Definition supports_auth_restart : M bool :=
  display_debug1 "Checking if FileVault can perform an AuthRestart..." [] ;;
  try_except
    (subprocess.check_output support_cmd)
    (λ exc,
       match exc with
       | CalledProcessError _ output =>
           Some
             ((if str_truthy output then
                 display_warning output []
               else
                 display_warning
                   "Encountered problem determining AuthRestart status..."
                   []) ;;
              mret false)
       | _ => None
       end)
    (λ is_supported,
       if str_in "true" is_supported then
         display_debug1 "FileVault supports AuthRestart..." [] ;;
         mret true
       else
         display_warning "FileVault AuthRestart is not supported..." [] ;;
         mret false).

(** Returns recovery key as a string... If we failed to get the proper
    information, returns an empty string.  (The empty byte string ['']
    the function returns and the empty unicode string are one value
    here: they compare equal and are both falsy, which is all the
    module asks of them.) *)
Definition get_auth_restart_key : M text :=
  recoverykeyplist ← prefs.pref "RecoveryKeyFile" ;
  if negb (truthy recoverykeyplist) then
    display_warning "RecoveryKeyFile preference is not set" [] ;;
    mret (u "")
  else
    display_debug1 "RecoveryKeyFile preference is set to %s..."
      [recoverykeyplist] ;;
    try_except
      (keyplist ← FoundationPlist.readPlist recoverykeyplist ;
       field ← getitem keyplist "RecoveryKey" ;
       py_strip field)
      (λ exc,
         match exc with
         | NSPropertyListSerializationException =>
             Some
               (display_error "We had trouble getting info from %s..."
                  [recoverykeyplist] ;;
                mret (u ""))
         | KeyError _ =>
             Some
               (display_error "Problem with key: RecoveryKey in %s..."
                  [recoverykeyplist] ;;
                mret (u ""))
         | _ => None
         end)
      (λ recovery_key, mret recovery_key).

(** Returns a boolean to indicate if all the needed conditions are
    present for us to attempt an authrestart. *)
Definition can_attempt_auth_restart : M value :=
  os_version_tuple ← osutils.getOsVersion ;
  py_and (mret (VBool (tuple_ge os_version_tuple [10; 8])))
    (py_and (prefs.pref "PerformAuthRestarts")
       (py_and (VBool <$> filevault_is_active)
          (py_and (VBool <$> supports_auth_restart)
             (k ← get_auth_restart_key ;
              mret (VBool (negb (bool_decide (k = u "")))))))).

(** When called this will perform an authorized restart. *)
Definition perform_auth_restart : M bool :=
  display_debug1
    "Checking if performing an Auth Restart is fully supported..." [] ;;
  supported ← supports_auth_restart ;
  if negb supported then
    display_warning "Machine doesn't support Authorized Restarts..." [] ;;
    mret false
  else
    display_debug1 "Machine supports Authorized Restarts..." [] ;;
    recovery_key ← get_auth_restart_key ;
    if negb (text_truthy recovery_key) then mret false
    else
      let key := VDict [("Password", VStr recovery_key)] in
      inputplist ← FoundationPlist.writePlistToString key ;
      display_info "Attempting an Authorized Restart now..." [] ;;
      cmd ← subprocess.Popen authrestart_cmd ;
      '(dummy_out, err) ← subprocess.communicate cmd inputplist ;
      os_version_tuple ← osutils.getOsVersion ;
      if tuple_ge os_version_tuple [10; 12]
         && str_in "System is being restarted" err
      then mret true
      else if str_truthy err then
        display_error err [] ;;
        mret false
      else mret true.

(** Do an authrestart if allowed/possible, else do a normal restart. *)
Definition do_authorized_or_normal_restart : M unit :=
  display_info "Restarting now." [] ;;
  os_version_tuple ← osutils.getOsVersion ;
  (* fall back to normal restart: the end of the function, reached from
     every branch that has not returned *)
  let fallback : M unit :=
    display_debug1 "Performing a regular restart..." [] ;;
    dummy_retcode ← subprocess.call shutdown_cmd ;
    mret tt in
  configured ←
    py_and (prefs.pref "PerformAuthRestarts")
      (py_and (prefs.pref "RecoveryKeyFile")
         (mret (VBool (tuple_ge os_version_tuple [10; 8])))) ;
  if truthy configured then
    active ← filevault_is_active ;
    if active : bool then
      display_debug1 "Configured to perform AuthRestarts..." [] ;;
      (* try to perform an auth restart *)
      ok ← perform_auth_restart ;
      if negb ok then
        (* the auth restart failed: notify, then perform a normal restart *)
        display_warning
          "Authorized Restart failed. Performing normal restart..." [] ;;
        fallback
      else
        (* we triggered an authrestart *)
        mret tt
    else fallback
  else fallback.

(** ** Sample worlds *)

(** The bytes of a unicode string of ASCII characters. *)
Definition ascii_bytes (s : text) : string :=
  string_of_list_ascii (map ascii_of_N s).

(** A serializer for the sample worlds: the XML property list of a
    one-entry dictionary holding a string. *)
Definition xml_plist (data : value) : string :=
  match data with
  | VDict [(k, VStr s)] =>
      "<plist><dict><key>" +:+ k +:+ "</key><string>" +:+ ascii_bytes s
        +:+ "</string></dict></plist>"
  | _ => "<plist/>"
  end.

(** A machine on which every program can be started: its OS version,
    its preferences, what [fdesetup isactive] and
    [fdesetup supportsauthrestart] exit with and print, the document at
    the recovery key path (if it parses) and what [fdesetup authrestart]
    writes to stderr. *)
Definition machine (ver : list Z) (store : gmap string value)
    (isactive supports : Z * string) (doc : option value) (err : string)
    : World :=
  {| os_version := ver;
     preferences := store;
     starts := λ _, true;
     run := λ cmd,
       if decide (cmd = active_cmd) then isactive
       else if decide (cmd = support_cmd) then supports
       else (127, "");
     plists := λ _, doc;
     serialize := xml_plist;
     communicate := λ _ _, ("", err);
     retcode := λ _, 0 |}.

(** The world [w] but for the program at [path], which cannot be
    started. *)
Definition missing_program (path : string) (w : World) : World :=
  {| os_version := os_version w;
     preferences := preferences w;
     starts := λ cmd, negb (bool_decide (head cmd = Some path)) && starts w cmd;
     run := run w;
     plists := plists w;
     serialize := serialize w;
     communicate := communicate w;
     retcode := retcode w |}.

(** The world [w] but for the command [cmd], whose process cannot be
    started. *)
Definition failing_command (cmd : list string) (w : World) : World :=
  {| os_version := os_version w;
     preferences := preferences w;
     starts := λ c, negb (bool_decide (c = cmd)) && starts w c;
     run := run w;
     plists := plists w;
     serialize := serialize w;
     communicate := communicate w;
     retcode := retcode w |}.

Definition configured_prefs : gmap string value :=
  {[ "PerformAuthRestarts" := VBool true;
     "RecoveryKeyFile" := VStr (u "/private/var/root/recoverykey.plist") ]}.

Definition nl : string := String (ascii_of_nat 10) "".

Definition key_doc (k : text) : option value :=
  Some (VDict [("RecoveryKey", VStr k)]).

(** macOS 10.14, FileVault on, authorized restart supported, a recovery
    key on file; [err] is what the helper writes to stderr. *)
Definition mojave (err : string) : World :=
  machine [10; 14; 0] configured_prefs (0, "true" +:+ nl) (0, "true" +:+ nl)
    (key_doc (u "  ABCD-1234  ")) err.

(** [mojave] with another outcome of [fdesetup isactive]. *)
Definition mojave_isactive (isactive : Z * string) : World :=
  machine [10; 14; 0] configured_prefs isactive (0, "true" +:+ nl)
    (key_doc (u "  ABCD-1234  ")) "".

(** [mojave] with another outcome of [fdesetup supportsauthrestart]. *)
Definition mojave_supports (supports : Z * string) : World :=
  machine [10; 14; 0] configured_prefs (0, "true" +:+ nl) supports
    (key_doc (u "  ABCD-1234  ")) "".

(** [mojave] with another document (or none that parses) at the recovery
    key path. *)
Definition mojave_doc (doc : option value) : World :=
  machine [10; 14; 0] configured_prefs (0, "true" +:+ nl)
    (0, "true" +:+ nl) doc "".

(** [mojave] with other preferences. *)
Definition mojave_prefs (store : gmap string value) : World :=
  machine [10; 14; 0] store (0, "true" +:+ nl) (0, "true" +:+ nl)
    (key_doc (u "  ABCD-1234  ")) "".

(** The same machine on another OS version; [err] is what the helper
    writes to stderr. *)
Definition on_version (ver : list Z) (err : string) : World :=
  machine ver configured_prefs (0, "true" +:+ nl) (0, "true" +:+ nl)
    (key_doc (u "  ABCD-1234  ")) err.

(** ** What the claims observe *)

(** What the status command exits with and prints, once started. *)
Definition isactive_status (w : World) : Z := (run w active_cmd).1.
Definition isactive_output (w : World) : string := (run w active_cmd).2.

(** What the capability command exits with and prints, once started. *)
Definition supports_status (w : World) : Z := (run w support_cmd).1.
Definition supports_output (w : World) : string := (run w support_cmd).2.

(** The status command starts, exits successfully and prints [true]. *)
Definition fv_active (w : World) : bool :=
  starts w active_cmd
  && (isactive_status w =? 0) && str_in "true" (isactive_output w).

(** The capability command starts, exits successfully and prints
    [true]. *)
Definition capable (w : World) : bool :=
  starts w support_cmd
  && (supports_status w =? 0) && str_in "true" (supports_output w).

(** How a [subprocess] function ends that returns [a] once the process
    for [cmd] has started. *)
Definition once_started {A} (w : World) (cmd : list string) (a : A)
    : result A :=
  if starts w cmd then Ret a else Raise OSError.

(** The document handed to the helper for the credential [k], and what
    the helper then writes to stderr. *)
Definition password_plist (k : text) : value :=
  VDict [("Password", VStr k)].
Definition helper_input (w : World) (k : text) : string :=
  serialize w (password_plist k).
Definition helper_stderr (w : World) (k : text) : string :=
  (communicate w authrestart_cmd (helper_input w k)).2.

(** The executor's reading of the helper's stderr on an OS version. *)
Definition classify (ver : list Z) (err : string) : bool :=
  if tuple_ge ver [10; 12] && str_in "System is being restarted" err
  then true
  else if str_truthy err then false
  else true.

(** How many events of a trace satisfy [p]. *)
Fixpoint count (p : event → bool) (t : list event) : nat :=
  match t with
  | [] => 0%nat
  | e :: t' => ((if p e then 1 else 0) + count p t')%nat
  end.

(** The authorized-restart helper is spawned: [subprocess.Popen] is
    called on it. *)
Definition is_helper_spawn (e : event) : bool :=
  match e with
  | Popen cmd => bool_decide (cmd = authrestart_cmd)
  | _ => false
  end.

(** The plain restart command is run: [subprocess.call] is called on
    it. *)
Definition is_plain_restart (e : event) : bool :=
  match e with
  | Call cmd => bool_decide (cmd = shutdown_cmd)
  | _ => false
  end.

(** [fdesetup supportsauthrestart] is run. *)
Definition is_capability_probe (e : event) : bool :=
  match e with
  | CheckOutput cmd => bool_decide (cmd = support_cmd)
  | _ => false
  end.

(** [fdesetup isactive] is run. *)
Definition is_filevault_probe (e : event) : bool :=
  match e with
  | CheckOutput cmd => bool_decide (cmd = active_cmd)
  | _ => false
  end.

(** The credential document is read. *)
Definition is_plist_read (e : event) : bool :=
  match e with
  | ReadPlist _ => true
  | _ => false
  end.

(** The preference [name] is read; any preference is read. *)
Definition is_pref_read (name : string) (e : event) : bool :=
  match e with
  | Pref n => String.eqb n name
  | _ => false
  end.

Definition is_any_pref_read (e : event) : bool :=
  match e with
  | Pref _ => true
  | _ => false
  end.

(** The first step of the executor. *)
Definition is_executor_entry (e : event) : bool :=
  match e with
  | Display Debug1 msg _ =>
      String.eqb msg
        "Checking if performing an Auth Restart is fully supported..."
  | _ => false
  end.

(** A [subprocess] function is called to start a process. *)
Definition is_process (e : event) : bool :=
  match e with
  | CheckOutput _ | Popen _ | Call _ => true
  | _ => false
  end.

Definition is_os_query (e : event) : bool :=
  match e with
  | GetOsVersion => true
  | _ => false
  end.

Definition is_display (e : event) : bool :=
  match e with
  | Display _ _ _ => true
  | _ => false
  end.

Definition helper_invocations (t : list event) : nat :=
  count is_helper_spawn t.
Definition plain_restarts (t : list event) : nat :=
  count is_plain_restart t.

(** Exactly one of the two restart mechanisms is invoked, once. *)
Definition exactly_one_mechanism (t : list event) : Prop :=
  (helper_invocations t = 1%nat ∧ plain_restarts t = 0%nat) ∨
  (helper_invocations t = 0%nat ∧ plain_restarts t = 1%nat).

(** The first three conditions of the top-level flow. *)
Definition configured (w : World) : bool :=
  truthy (pref_value w "PerformAuthRestarts")
  && truthy (pref_value w "RecoveryKeyFile")
  && tuple_ge (os_version w) [10; 8].

(** The restricted eligibility check of the top-level flow. *)
Definition restricted_eligible (w : World) : bool :=
  configured w && fv_active w.

(** What the top-level flow does while deciding, and its fallback. *)
Definition deciding_trace (w : World) : list event :=
  [Display Info "Restarting now." []; GetOsVersion;
   Pref "PerformAuthRestarts"] ++
  (if truthy (pref_value w "PerformAuthRestarts")
   then [Pref "RecoveryKeyFile"] else []) ++
  (if configured w then trace filevault_is_active w else []).

Definition fallback_trace : list event :=
  [Display Debug1 "Performing a regular restart..." []; Call shutdown_cmd].

(** The world [w] on another OS version. *)
Definition with_os_version (ver : list Z) (w : World) : World :=
  {| os_version := ver;
     preferences := preferences w;
     starts := starts w;
     run := run w;
     plists := plists w;
     serialize := serialize w;
     communicate := communicate w;
     retcode := retcode w |}.

(** The first step of the executor and its two reports on the
    capability probe. *)
Definition executor_entry : event :=
  Display Debug1
    "Checking if performing an Auth Restart is fully supported..." [].
Definition executor_unsupported : event :=
  Display Warning "Machine doesn't support Authorized Restarts..." [].
Definition executor_supported : event :=
  Display Debug1 "Machine supports Authorized Restarts..." [].

(** An event with what it hands to the serializer or to a process's
    standard input blanked. *)
Definition redact (e : event) : event :=
  match e with
  | WritePlistToString _ => WritePlistToString VNone
  | Communicate proc _ => Communicate proc ""
  | _ => e
  end.

(** An event that hands data to the serializer or to a process's
    standard input. *)
Definition is_sink (e : event) : bool :=
  match e with
  | WritePlistToString _ | Communicate _ _ => true
  | _ => false
  end.

(** The display calls of a trace, in order. *)
Fixpoint displayed (t : list event) : list event :=
  match t with
  | [] => []
  | e :: t' => if is_display e then e :: displayed t' else displayed t'
  end.

(** Two worlds that differ at most in the documents on file, in the
    serializer and in what processes fed through standard input
    answer. *)
Definition same_machine (w1 w2 : World) : Prop :=
  os_version w1 = os_version w2 ∧
  preferences w1 = preferences w2 ∧
  (∀ cmd, starts w1 cmd = starts w2 cmd) ∧
  (∀ cmd, run w1 cmd = run w2 cmd) ∧
  (∀ cmd, retcode w1 cmd = retcode w2 cmd).

(** The executor gets as far as the helper: the capability probe
    answers yes and the lookup a non-empty credential. *)
Definition helper_reached (w : World) : bool :=
  capable w &&
  match outcome get_auth_restart_key w with
  | Ret k => text_truthy k
  | Raise _ => false
  end.

(** The executor returns [True]. *)
Definition executor_ok (w : World) : bool :=
  match outcome perform_auth_restart w with
  | Ret b => b
  | Raise _ => false
  end.

(** A display call at warning level, at error level. *)
Definition is_warning (e : event) : bool :=
  match e with
  | Display Warning _ _ => true
  | _ => false
  end.

Definition is_error_display (e : event) : bool :=
  match e with
  | Display Error _ _ => true
  | _ => false
  end.

(** The serializer is called. *)
Definition is_serialize (e : event) : bool :=
  match e with
  | WritePlistToString _ => true
  | _ => false
  end.

(** A predicate on events that holds of no display call. *)
Definition silent (p : event → bool) : Prop :=
  ∀ lvl msg args, p (Display lvl msg args) = false.

(** ** How the computations run *)

Ltac step_m :=
  unfold py_and, try_except, getitem, py_strip,
    subprocess.check_output, subprocess.Popen, subprocess.communicate,
    subprocess.call,
    FoundationPlist.readPlist, FoundationPlist.writePlistToString,
    prefs.pref, osutils.getOsVersion,
    display_debug1, display_info, display_warning, display_error,
    emit, ask, raise, trace, outcome,
    fmap, M_fmap, mbind, M_bind, mret, M_ret in *.

Lemma run_pair {A} (m : M A) (w : World) : m w = (trace m w, outcome m w).
Proof. unfold trace, outcome. by destruct (m w). Qed.

Lemma filevault_is_active_outcome (w : World) :
  outcome filevault_is_active w = once_started w active_cmd (fv_active w).
Proof.
  unfold once_started, fv_active, isactive_status, isactive_output,
    filevault_is_active.
  step_m. cbn.
  destruct (starts w active_cmd); cbn; [|done].
  destruct (run w active_cmd) as [rc out]; cbn.
  destruct (rc =? 0); cbn; repeat case_match; simplify_eq/=; done.
Qed.

Lemma filevault_is_active_trace (w : World) :
  trace filevault_is_active w =
  [Display Debug1 "Checking if FileVault is enabled..." [];
   CheckOutput active_cmd] ++
  (if starts w active_cmd && negb (isactive_status w =? 0) then
     let output := isactive_output w in
     [Display Warning
        (if str_truthy output && str_in "false" output then
           "FileVault appears to be disabled..."
         else if negb (str_truthy output) then
           "Encountered problem determining FileVault status..."
         else output) []]
   else []).
Proof.
  unfold isactive_status, isactive_output, filevault_is_active.
  step_m. cbn.
  destruct (starts w active_cmd); cbn; [|done].
  destruct (run w active_cmd) as [rc out]; cbn.
  destruct (rc =? 0); cbn; repeat case_match; simplify_eq/=; done.
Qed.

Lemma supports_auth_restart_outcome (w : World) :
  outcome supports_auth_restart w = once_started w support_cmd (capable w).
Proof.
  unfold once_started, capable, supports_status, supports_output,
    supports_auth_restart.
  step_m. cbn.
  destruct (starts w support_cmd); cbn; [|done].
  destruct (run w support_cmd) as [rc out]; cbn.
  destruct (rc =? 0); cbn; repeat case_match; simplify_eq/=; done.
Qed.

Lemma supports_auth_restart_trace (w : World) :
  trace supports_auth_restart w =
  [Display Debug1 "Checking if FileVault can perform an AuthRestart..." [];
   CheckOutput support_cmd] ++
  (if starts w support_cmd then
     if supports_status w =? 0 then
       if str_in "true" (supports_output w) then
         [Display Debug1 "FileVault supports AuthRestart..." []]
       else [Display Warning "FileVault AuthRestart is not supported..." []]
     else
       [Display Warning
          (if str_truthy (supports_output w) then supports_output w
           else "Encountered problem determining AuthRestart status...")
          []]
   else []).
Proof.
  unfold supports_status, supports_output, supports_auth_restart.
  step_m. cbn.
  destruct (starts w support_cmd); cbn; [|done].
  destruct (run w support_cmd) as [rc out]; cbn.
  destruct (rc =? 0); cbn; repeat case_match; simplify_eq/=; done.
Qed.

(** The lookup, by cases on the preference and on the document. *)
Lemma get_auth_restart_key_run (w : World) :
  let path := pref_value w "RecoveryKeyFile" in
  let found := [Pref "RecoveryKeyFile";
                Display Debug1 "RecoveryKeyFile preference is set to %s..."
                  [path];
                ReadPlist path] in
  get_auth_restart_key w =
  if negb (truthy path) then
    ([Pref "RecoveryKeyFile";
      Display Warning "RecoveryKeyFile preference is not set" []], Ret [])
  else
    match plists w path with
    | None =>
        (found ++ [Display Error "We had trouble getting info from %s..."
                     [path]], Ret [])
    | Some (VDict d) =>
        match dict_get d "RecoveryKey" with
        | None =>
            (found ++ [Display Error "Problem with key: RecoveryKey in %s..."
                         [path]], Ret [])
        | Some (VStr s) => (found, Ret (strip s))
        | Some _ => (found, Raise AttributeError)
        end
    | Some _ => (found, Raise TypeError)
    end.
Proof.
  unfold get_auth_restart_key. step_m. cbn.
  destruct (truthy _); cbn; [|done].
  destruct (plists w _) as [[]|]; cbn; try done.
  destruct (dict_get d "RecoveryKey") as [[]|]; cbn; done.
Qed.

Lemma filevault_is_active_run (w : World) :
  filevault_is_active w =
  (trace filevault_is_active w, once_started w active_cmd (fv_active w)).
Proof. by rewrite (run_pair filevault_is_active), filevault_is_active_outcome. Qed.

Lemma supports_auth_restart_run (w : World) :
  supports_auth_restart w =
  (trace supports_auth_restart w, once_started w support_cmd (capable w)).
Proof.
  by rewrite (run_pair supports_auth_restart), supports_auth_restart_outcome.
Qed.

Lemma fv_active_starts (w : World) :
  fv_active w = true → starts w active_cmd = true.
Proof. unfold fv_active. by destruct (starts w active_cmd). Qed.

Lemma capable_starts (w : World) :
  capable w = true → starts w support_cmd = true.
Proof. unfold capable. by destruct (starts w support_cmd). Qed.

(** The executor, by cases on the capability probe, the lookup, the
    start of the helper and the helper's stderr. *)
Lemma perform_auth_restart_run (w : World) :
  let entry := executor_entry :: trace supports_auth_restart w in
  perform_auth_restart w =
  if capable w then
    let looked :=
      entry ++ executor_supported :: trace get_auth_restart_key w in
    match outcome get_auth_restart_key w with
    | Raise e => (looked, Raise e)
    | Ret k =>
        if text_truthy k then
          let err := helper_stderr w k in
          let attempt :=
            looked ++
            [WritePlistToString (password_plist k);
             Display Info "Attempting an Authorized Restart now..." [];
             Popen authrestart_cmd] in
          if starts w authrestart_cmd then
            (attempt ++
             [Communicate authrestart_cmd (helper_input w k);
              GetOsVersion] ++
             (if classify (os_version w) err then []
              else [Display Error err []]),
             Ret (classify (os_version w) err))
          else (attempt, Raise OSError)
        else (looked, Ret false)
    end
  else
    (entry ++ (if starts w support_cmd then [executor_unsupported] else []),
     once_started w support_cmd false).
Proof.
  cbn zeta.
  pose proof (supports_auth_restart_run w) as Hs.
  pose proof (capable_starts w) as Hst.
  unfold perform_auth_restart, executor_entry, executor_unsupported,
    executor_supported, once_started, helper_stderr, helper_input,
    password_plist, classify in *.
  generalize dependent supports_auth_restart.
  generalize dependent get_auth_restart_key.
  intros key sup Hs. step_m. cbn.
  destruct (sup w) as [ts rs]; cbn in *.
  destruct (starts w support_cmd); simplify_eq; cbn.
  2: { destruct (capable w); [by specialize (Hst eq_refl)|].
       by rewrite app_nil_r. }
  destruct (capable w); cbn; [|done].
  destruct (key w) as [tk [k|e]]; cbn; [|done].
  destruct (text_truthy k); cbn; [|by rewrite app_nil_r].
  destruct (starts w authrestart_cmd); cbn.
  - destruct (communicate w authrestart_cmd _) as [out err]; cbn.
    destruct (tuple_ge (os_version w) [10; 12] && _); cbn.
    + by rewrite <- !app_assoc.
    + destruct (str_truthy err); cbn; by rewrite <- !app_assoc.
  - by rewrite <- !app_assoc.
Qed.

(** The gate, by cases on its conditions in the order it tests them. *)
Lemma can_attempt_auth_restart_run (w : World) :
  let p := pref_value w "PerformAuthRestarts" in
  can_attempt_auth_restart w =
  if tuple_ge (os_version w) [10; 8] then
    if truthy p then
      if fv_active w then
        if capable w then
          ([GetOsVersion; Pref "PerformAuthRestarts"] ++
           trace filevault_is_active w ++ trace supports_auth_restart w ++
           trace get_auth_restart_key w,
           match outcome get_auth_restart_key w with
           | Ret k => Ret (VBool (text_truthy k))
           | Raise e => Raise e
           end)
        else
          ([GetOsVersion; Pref "PerformAuthRestarts"] ++
           trace filevault_is_active w ++ trace supports_auth_restart w,
           once_started w support_cmd (VBool false))
      else
        ([GetOsVersion; Pref "PerformAuthRestarts"] ++
         trace filevault_is_active w,
         once_started w active_cmd (VBool false))
    else ([GetOsVersion; Pref "PerformAuthRestarts"], Ret p)
  else ([GetOsVersion], Ret (VBool false)).
Proof.
  cbn zeta.
  pose proof (filevault_is_active_run w) as Hf.
  pose proof (supports_auth_restart_run w) as Hs.
  pose proof (fv_active_starts w) as Hfs.
  pose proof (capable_starts w) as Hcs.
  unfold can_attempt_auth_restart, once_started in *.
  generalize dependent filevault_is_active.
  generalize dependent supports_auth_restart.
  generalize dependent get_auth_restart_key.
  intros key sup Hs fv Hf. step_m. cbn.
  destruct (tuple_ge (os_version w) [10; 8]); cbn; [|done].
  destruct (truthy (pref_value w _)); cbn; [|done].
  destruct (fv w) as [tf rf]; cbn in *.
  destruct (fv_active w); cbn.
  2: { destruct (starts w active_cmd); simplify_eq; cbn;
       by rewrite ?app_nil_r. }
  rewrite (Hfs eq_refl) in Hf. simplify_eq. cbn.
  destruct (sup w) as [ts rs]; cbn in *.
  destruct (capable w); cbn.
  2: { destruct (starts w support_cmd); simplify_eq; cbn;
       by rewrite ?app_nil_r. }
  rewrite (Hcs eq_refl) in Hs. simplify_eq. cbn.
  destruct (key w) as [tk [k|e]]; cbn; rewrite ?app_nil_r; [|done].
  by destruct k.
Qed.

(** The top-level flow, by cases on its eligibility check and on how
    the status probe and the executor end. *)
Lemma do_authorized_or_normal_restart_run (w : World) :
  let attempt :=
    deciding_trace w ++
    Display Debug1 "Configured to perform AuthRestarts..." []
    :: trace perform_auth_restart w in
  do_authorized_or_normal_restart w =
  if restricted_eligible w then
    match outcome perform_auth_restart w with
    | Ret true => (attempt, Ret tt)
    | Ret false =>
        (attempt ++
         Display Warning
           "Authorized Restart failed. Performing normal restart..." []
         :: fallback_trace, once_started w shutdown_cmd tt)
    | Raise e => (attempt, Raise e)
    end
  else if configured w && negb (starts w active_cmd) then
    (deciding_trace w, Raise OSError)
  else (deciding_trace w ++ fallback_trace, once_started w shutdown_cmd tt).
Proof.
  cbn zeta.
  pose proof (filevault_is_active_run w) as Hf.
  pose proof (fv_active_starts w) as Hfs.
  unfold do_authorized_or_normal_restart, restricted_eligible,
    deciding_trace, configured, fallback_trace, once_started in *.
  generalize dependent filevault_is_active.
  generalize dependent perform_auth_restart.
  intros exe fv Hf. step_m. cbn.
  destruct (truthy (pref_value w "PerformAuthRestarts")) eqn:Hp;
    cbn; rewrite ?Hp; cbn; [|by destruct (starts w shutdown_cmd)].
  destruct (truthy (pref_value w "RecoveryKeyFile")) eqn:Hp';
    cbn; rewrite ?Hp'; cbn; [|by destruct (starts w shutdown_cmd)].
  destruct (tuple_ge (os_version w) [10; 8]); cbn;
    [|by destruct (starts w shutdown_cmd)].
  destruct (fv w) as [tf rf]; cbn in *.
  destruct (fv_active w); cbn.
  2: { destruct (starts w active_cmd); simplify_eq; cbn;
         [by destruct (starts w shutdown_cmd) | by rewrite ?app_nil_r]. }
  rewrite (Hfs eq_refl) in Hf. simplify_eq. cbn.
  destruct (exe w) as [te [[]|e]]; cbn;
    try destruct (starts w shutdown_cmd); cbn;
    rewrite <- ?app_assoc; cbn; by rewrite ?app_nil_r.
Qed.

(** ** Substrings and stripping *)

Lemma append_cons (c : ascii) (s r : string) :
  String c s +:+ r = String c (s +:+ r).
Proof. reflexivity. Qed.

Lemma append_nil (r : string) : "" +:+ r = r.
Proof. reflexivity. Qed.

Lemma prefix_spec (sub s : string) :
  String.prefix sub s = true ↔ ∃ r, s = sub +:+ r.
Proof.
  revert s. induction sub as [|c sub IH]; intros s.
  - destruct s; cbn; (split; [intros _; by eexists | done]).
  - destruct s as [|c' s]; cbn.
    + split; [done | intros [r Hr]; discriminate].
    + destruct (Ascii.ascii_dec c c') as [->|Hne].
      * rewrite IH. split; intros [r Hr]; exists r;
          rewrite append_cons in *; congruence.
      * split; [done | intros [r Hr]; rewrite append_cons in Hr; congruence].
Qed.

(** [sub in s] holds exactly when [s] is some text, then [sub], then
    some text. *)
Lemma str_in_spec (sub s : string) :
  str_in sub s = true ↔ ∃ l r, s = l +:+ sub +:+ r.
Proof.
  induction s as [|c s IH].
  - change (str_in sub "") with (String.prefix sub "" || false).
    rewrite orb_false_r, prefix_spec. split.
    + intros [r Hr]. by exists "", r.
    + intros [l [r Hr]]. destruct l; [by exists r | discriminate].
  - change (str_in sub (String c s))
      with (String.prefix sub (String c s) || str_in sub s).
    rewrite orb_true_iff, prefix_spec, IH. split.
    + intros [[r Hr] | [l [r Hr]]].
      * by exists "", r.
      * exists (String c l), r. rewrite append_cons. by rewrite Hr.
    + intros [l [r Hr]]. destruct l as [|c' l].
      * left. by exists r.
      * right. exists l, r. rewrite append_cons in Hr. congruence.
Qed.

Lemma all_space_app (l r : text) :
  all_space (l ++ r) = all_space l && all_space r.
Proof.
  induction l as [|c l IH]; [done|].
  cbn. rewrite IH. by destruct (is_space c).
Qed.

Lemma lstrip_spec (s : text) :
  ∃ l, all_space l = true ∧ s = l ++ lstrip s.
Proof.
  induction s as [|c s [l [Hl Hs]]]; cbn.
  - by exists [].
  - destruct (is_space c) eqn:Hc.
    + exists (c :: l). cbn. rewrite Hc, Hl. split; [done | congruence].
    + by exists [].
Qed.






Lemma lstrip_empty (s : text) : lstrip s = [] ↔ all_space s = true.
Proof.
  induction s as [|c s IH]; cbn; [done|].
  destruct (is_space c); cbn; [done|]. split; done.
Qed.

Lemma rstrip_empty (s : text) : rstrip s = [] ↔ all_space s = true.
Proof.
  induction s as [|c s IH]; cbn; [done|].
  destruct (rstrip s) as [|c' s'].
  - destruct (is_space c); cbn; [|split; done].
    split; [intros _; by apply IH | done].
  - split; [done|]. intros [_ H]%andb_true_iff.
    by apply IH in H.
Qed.

(** Stripping leaves nothing exactly of a string of whitespace. *)
Lemma strip_empty (s : text) : strip s = [] ↔ all_space s = true.
Proof.
  unfold strip. rewrite rstrip_empty.
  destruct (lstrip_spec s) as [l [Hl Hs]].
  rewrite Hs at 2. rewrite all_space_app, Hl. done.
Qed.

Example strip_recovery_key : strip (u "  ABCD-1234  ") = u "ABCD-1234".
Proof. reflexivity. Qed.

(** Whitespace that is not ASCII is stripped as well: an information
    separator (U+001F), a no-break space (U+00A0), an em space
    (U+2003) and an ideographic space (U+3000) around a key. *)
Example strip_unicode_space :
  strip ([31; 160; 8195] ++ u "ABCD-1234" ++ [12288])%N = u "ABCD-1234".
Proof. reflexivity. Qed.

Example tuple_ge_examples :
  tuple_ge [10; 13; 0] [10; 12] = true ∧
  tuple_ge [10; 11; 0] [10; 12] = false ∧
  tuple_ge [10; 8] [10; 8] = true ∧
  tuple_ge [10] [10; 8] = false ∧
  tuple_ge [11] [10; 8] = true.
Proof. by repeat split. Qed.

Lemma tuple_ge_refl (a : list Z) : tuple_ge a a = true.
Proof. induction a as [|x a IH]; [done|]. cbn. by rewrite Z.eqb_refl. Qed.

(** The order on tuples is transitive. *)
Lemma tuple_ge_trans (a b c : list Z) :
  tuple_ge a b = true → tuple_ge b c = true → tuple_ge a c = true.
Proof.
  revert b c. induction a as [|x a IH]; intros [|y b] [|z c]; cbn;
    try done.
  destruct (Z.eqb_spec x y) as [->|Hxy], (Z.eqb_spec y z) as [->|Hyz].
  - apply IH.
  - intros _ H. done.
  - intros H _. destruct (Z.eqb_spec x z); [lia | done].
  - intros H1%Z.ltb_lt H2%Z.ltb_lt.
    destruct (Z.eqb_spec x z); [lia | by apply Z.ltb_lt; lia].
Qed.

Lemma text_truthy_nonempty (k : text) : text_truthy k = true ↔ k ≠ [].
Proof. by destruct k. Qed.

(** ** Counting events *)

Lemma count_app (p : event → bool) (t1 t2 : list event) :
  count p (t1 ++ t2) = (count p t1 + count p t2)%nat.
Proof. induction t1 as [|e t1 IH]; cbn; [done | rewrite IH; lia]. Qed.

Lemma count_zero_Forall (p : event → bool) (t : list event) :
  count p t = 0%nat ↔ Forall (λ e, p e = false) t.
Proof.
  induction t as [|e t IH]; cbn; [by split|].
  rewrite Forall_cons, <- IH. destruct (p e); split.
  - lia.
  - by intros [? _].
  - intros. split; [done | lia].
  - intros [_ H]. lia.
Qed.

Lemma count_zero_elem (p : event → bool) (t : list event) (Q : event → Prop) :
  count p t = 0%nat → Forall (λ e, p e = true → Q e) t.
Proof.
  intros H%count_zero_Forall. eapply Forall_impl; [exact H|].
  intros e -> [=].
Qed.

Lemma filevault_is_active_count (p : event → bool) (w : World) :
  silent p →
  count p (trace filevault_is_active w) =
  if p (CheckOutput active_cmd) then 1%nat else 0%nat.
Proof.
  intros Hp. rewrite filevault_is_active_trace. cbn.
  rewrite Hp. cbn.
  destruct (starts w active_cmd && _); cbn; rewrite ?Hp; lia.
Qed.

Lemma supports_auth_restart_count (p : event → bool) (w : World) :
  silent p →
  count p (trace supports_auth_restart w) =
  if p (CheckOutput support_cmd) then 1%nat else 0%nat.
Proof.
  intros Hp. rewrite supports_auth_restart_trace. cbn.
  rewrite Hp. cbn.
  destruct (starts w support_cmd);
    [destruct (supports_status w =? 0); [destruct (str_in _ _)|]|];
    cbn; rewrite ?Hp; lia.
Qed.

Lemma get_auth_restart_key_count (p : event → bool) (w : World) :
  silent p →
  count p (trace get_auth_restart_key w) =
  ((if p (Pref "RecoveryKeyFile") then 1 else 0) +
   (if truthy (pref_value w "RecoveryKeyFile")
    then if p (ReadPlist (pref_value w "RecoveryKeyFile")) then 1 else 0
    else 0))%nat.
Proof.
  intros Hp. unfold trace. rewrite get_auth_restart_key_run.
  destruct (truthy _); cbn; [|rewrite Hp; lia].
  destruct (plists w _) as [[]|]; cbn; rewrite ?Hp; try lia.
  destruct (dict_get d "RecoveryKey") as [[]|]; cbn; rewrite ?Hp; lia.
Qed.

Lemma silent_filevault_probe : silent is_filevault_probe.
Proof. done. Qed.
Lemma silent_capability_probe : silent is_capability_probe.
Proof. done. Qed.
Lemma silent_pref_read (name : string) : silent (is_pref_read name).
Proof. done. Qed.
Lemma silent_any_pref_read : silent is_any_pref_read.
Proof. done. Qed.
Lemma silent_plist_read : silent is_plist_read.
Proof. done. Qed.
Lemma silent_helper_spawn : silent is_helper_spawn.
Proof. done. Qed.
Lemma silent_plain_restart : silent is_plain_restart.
Proof. done. Qed.
Lemma silent_os_query : silent is_os_query.
Proof. done. Qed.
Lemma silent_process : silent is_process.
Proof. done. Qed.
Lemma silent_sink : silent is_sink.
Proof. done. Qed.
Lemma silent_serialize : silent is_serialize.
Proof. done. Qed.

Create HintDb silent.
#[local] Hint Resolve silent_filevault_probe silent_capability_probe
  silent_pref_read silent_any_pref_read silent_plist_read
  silent_helper_spawn silent_plain_restart silent_os_query silent_process
  silent_sink silent_serialize : silent.

Ltac decide_cmds :=
  repeat match goal with
  | |- context [bool_decide (?a = ?b)] =>
      first
        [ rewrite (bool_decide_eq_true_2 (a = b)) by reflexivity
        | rewrite (bool_decide_eq_false_2 (a = b))
            by (let H := fresh in intros H; vm_compute in H; discriminate) ]
  end.

(** Counts the events of a trace built from the traces of the probes and
    of the lookup. *)
Ltac count_events :=
  unfold executor_entry, executor_unsupported, executor_supported,
    fallback_trace;
  repeat (progress (rewrite ?count_app; cbn [count]));
  rewrite ?filevault_is_active_count, ?supports_auth_restart_count,
    ?get_auth_restart_key_count by auto with silent;
  cbn; decide_cmds; cbn.

Lemma filevault_is_active_no_entry (w : World) :
  count is_executor_entry (trace filevault_is_active w) = 0%nat.
Proof.
  rewrite filevault_is_active_trace.
  by destruct (starts w active_cmd && _).
Qed.

Lemma supports_auth_restart_no_entry (w : World) :
  count is_executor_entry (trace supports_auth_restart w) = 0%nat.
Proof.
  rewrite supports_auth_restart_trace.
  destruct (starts w support_cmd);
    [destruct (supports_status w =? 0); [destruct (str_in _ _)|]|]; done.
Qed.

Lemma get_auth_restart_key_no_entry (w : World) :
  count is_executor_entry (trace get_auth_restart_key w) = 0%nat.
Proof.
  unfold trace. rewrite get_auth_restart_key_run.
  destruct (truthy _); cbn; [|done].
  destruct (plists w _) as [[]|]; cbn; try done.
  by destruct (dict_get d "RecoveryKey") as [[]|].
Qed.

Lemma deciding_trace_count (p : event → bool) (w : World) :
  silent p → p GetOsVersion = false → (∀ n, p (Pref n) = false) →
  p (CheckOutput active_cmd) = false →
  count p (deciding_trace w) = 0%nat.
Proof.
  intros Hp Ho Hr Hc. unfold deciding_trace. cbn.
  rewrite Hp, Ho, Hr, count_app. cbn.
  destruct (truthy _); cbn; rewrite ?Hr;
    (destruct (configured w);
     [rewrite filevault_is_active_count, Hc by done|]); done.
Qed.

Lemma deciding_trace_no_entry (w : World) :
  count is_executor_entry (deciding_trace w) = 0%nat.
Proof.
  unfold deciding_trace. cbn. rewrite count_app.
  destruct (truthy _), (configured w); cbn;
    by rewrite ?filevault_is_active_no_entry.
Qed.

Ltac entry_count :=
  unfold executor_entry, executor_unsupported, executor_supported,
    fallback_trace;
  repeat (progress (rewrite ?count_app; cbn [count]));
  rewrite ?filevault_is_active_no_entry, ?supports_auth_restart_no_entry,
    ?get_auth_restart_key_no_entry;
  cbn.

(** * The claims *)

(** ** FileVaultStatusProbe *)

(** C8 fails as stated.  Where [fdesetup] cannot be started,
    [subprocess.check_output] raises [OSError], which is not the
    [CalledProcessError] the probe catches: the exception leaves the
    probe, which returns neither [True] nor [False]. *)
Lemma filevault_is_active_raises :
  outcome filevault_is_active (missing_program "/usr/bin/fdesetup" (mojave ""))
  = Raise OSError ∧
  ¬ ∃ b : bool,
      outcome filevault_is_active
        (missing_program "/usr/bin/fdesetup" (mojave "")) = Ret b.
Proof.
  split; [by vm_compute|]. intros [b Hb]. vm_compute in Hb. discriminate.
Qed.

(** C8, as the code has it.  Where the status command can be started,
    [filevault_is_active] returns a boolean and no exception leaves it:
    [True] exactly when the command exits with status 0 and its output
    contains [true]; a non-zero exit, with an output that contains
    [false], that is empty or that is anything else, returns [False],
    and so does a successful exit whose output does not contain [true].
    Where the command cannot be started, the [OSError] of
    [subprocess.check_output] leaves the probe. *)
Theorem filevault_is_active_total (w : World) :
  (starts w active_cmd = true →
   ∃ b : bool,
     outcome filevault_is_active w = Ret b ∧
     (b = true ↔
        isactive_status w = 0 ∧
        ∃ l r, isactive_output w = l +:+ "true" +:+ r) ∧
     (isactive_status w ≠ 0 → b = false) ∧
     (str_in "true" (isactive_output w) = false → b = false)) ∧
  (starts w active_cmd = false →
   outcome filevault_is_active w = Raise OSError) ∧
  (outcome filevault_is_active w = Ret true →
   starts w active_cmd = true ∧ isactive_status w = 0 ∧
   ∃ l r, isactive_output w = l +:+ "true" +:+ r).
Proof.
  rewrite filevault_is_active_outcome. unfold once_started, fv_active.
  split; [|split].
  - intros ->. cbn. eexists. split; [done|]. split; [|split].
    + rewrite andb_true_iff, Z.eqb_eq, str_in_spec. done.
    + intros Hne. apply Z.eqb_neq in Hne. by rewrite Hne.
    + intros ->. by rewrite andb_false_r.
  - by intros ->.
  - destruct (starts w active_cmd); [|done]. cbn. intros [= H].
    apply andb_true_iff in H as [H1%Z.eqb_eq H2%str_in_spec]. done.
Qed.

(** The probe on the five kinds of answer of the status command, and
    on a machine without [fdesetup]. *)
Lemma filevault_is_active_total_witness :
  outcome filevault_is_active (mojave_isactive (1, "false" +:+ nl))
    = Ret false ∧
  outcome filevault_is_active (mojave_isactive (1, "")) = Ret false ∧
  outcome filevault_is_active (mojave_isactive (1, "Error: no volume"))
    = Ret false ∧
  outcome filevault_is_active (mojave_isactive (0, "false" +:+ nl))
    = Ret false ∧
  outcome filevault_is_active (mojave_isactive (0, "true" +:+ nl))
    = Ret true ∧
  outcome filevault_is_active
    (missing_program "/usr/bin/fdesetup" (mojave "")) = Raise OSError.
Proof.
  split; [|split; [|split; [|split; [|split]]]].
  - destruct (filevault_is_active_total (mojave_isactive (1, "false" +:+ nl)))
      as (H & _).
    destruct H as (b & -> & _ & Hnz & _); [by vm_compute|].
    f_equal. apply Hnz. by vm_compute.
  - destruct (filevault_is_active_total (mojave_isactive (1, "")))
      as (H & _).
    destruct H as (b & -> & _ & Hnz & _); [by vm_compute|].
    f_equal. apply Hnz. by vm_compute.
  - destruct (filevault_is_active_total
                (mojave_isactive (1, "Error: no volume")))
      as (H & _).
    destruct H as (b & -> & _ & Hnz & _); [by vm_compute|].
    f_equal. apply Hnz. by vm_compute.
  - destruct (filevault_is_active_total (mojave_isactive (0, "false" +:+ nl)))
      as (H & _).
    destruct H as (b & -> & _ & _ & Hnt); [by vm_compute|].
    f_equal. apply Hnt. by vm_compute.
  - destruct (filevault_is_active_total (mojave_isactive (0, "true" +:+ nl)))
      as (H & _).
    destruct H as (b & -> & Hiff & _ & _); [by vm_compute|].
    f_equal. apply Hiff. split; [by vm_compute|].
    exists "", nl. by vm_compute.
  - destruct (filevault_is_active_total
                (missing_program "/usr/bin/fdesetup" (mojave "")))
      as (_ & H & _).
    apply H. by vm_compute.
Defined.

(** ** RecoveryCredentialLookup *)



(** C7: the lookup does not return the empty string in every failure
    case.  A document that parses but is not a dictionary (here an
    array holding the key) has no [RecoveryKey] field, yet indexing it
    raises a [TypeError]; a dictionary whose [RecoveryKey] is not a
    string (here a number) raises an [AttributeError] on [strip].  The
    lookup catches [NSPropertyListSerializationException] and
    [KeyError] only, so both leave it, and with it the gate and the
    executor. *)
Theorem get_auth_restart_key_propagates :
  let array_doc := mojave_doc (Some (VList [VStr (u "ABCD-1234")])) in
  let number_doc := mojave_doc (Some (VDict [("RecoveryKey", VInt 12345)])) in
  outcome get_auth_restart_key array_doc = Raise TypeError ∧
  outcome get_auth_restart_key number_doc = Raise AttributeError ∧
  outcome can_attempt_auth_restart array_doc = Raise TypeError ∧
  outcome perform_auth_restart array_doc = Raise TypeError ∧
  outcome get_auth_restart_key
    (mojave_doc (Some (VDict [("Comment", VStr (u "no key here"))])))
  = Ret [].
Proof. by vm_compute. Qed.

(** ** PreconditionGate *)

(** Closes a case of the gate in which one of the conditions fails. *)
Ltac gate_case :=
  simplify_eq; cbn; rewrite ?app_nil_r; repeat split; intros;
  try match goal with
  | H : Ret ?x = Ret (VBool true), Hp : truthy ?x = false |- _ =>
      injection H as H; rewrite H in Hp; done
  end;
  simplify_eq/=;
  solve [ done | lia | count_events; lia | congruence
        | destruct_and?; congruence ].

(** C3. [can_attempt_auth_restart] returns [True] exactly when its five
    conditions hold: the OS version is at least (10, 8), the
    [PerformAuthRestarts] preference is truthy, [filevault_is_active()]
    and [supports_auth_restart()] return [True] and
    [get_auth_restart_key()] returns a non-empty string.  The conditions
    are evaluated in that order and each one only where all the earlier
    ones hold: the trace is the OS version query, then the preference
    read, then the three probes' traces, cut after the first condition
    that fails, and each probe is called once or not at all. *)
Theorem can_attempt_auth_restart_spec (w : World) :
  let c1 := tuple_ge (os_version w) [10; 8] in
  let c2 := truthy (pref_value w "PerformAuthRestarts") in
  let c3 := fv_active w in
  let c4 := capable w in
  let t := trace can_attempt_auth_restart w in
  (outcome filevault_is_active w = Ret true ↔ c3 = true) ∧
  (outcome supports_auth_restart w = Ret true ↔ c4 = true) ∧
  (starts w active_cmd = true → outcome filevault_is_active w = Ret c3) ∧
  (starts w support_cmd = true → outcome supports_auth_restart w = Ret c4) ∧
  (outcome can_attempt_auth_restart w = Ret (VBool true) ↔
   c1 = true ∧ c2 = true ∧ c3 = true ∧ c4 = true ∧
   ∃ k, outcome get_auth_restart_key w = Ret k ∧ k ≠ []) ∧
  (∀ v, outcome can_attempt_auth_restart w = Ret v →
        truthy v = true ↔ v = VBool true) ∧
  t = GetOsVersion ::
      (if c1 then
         Pref "PerformAuthRestarts" ::
         (if c2 then
            trace filevault_is_active w ++
            (if c3 then
               trace supports_auth_restart w ++
               (if c4 then trace get_auth_restart_key w else [])
             else [])
          else [])
       else []) ∧
  count is_os_query t = 1%nat ∧
  count (is_pref_read "PerformAuthRestarts") t
    = (if c1 then 1 else 0)%nat ∧
  count is_filevault_probe t = (if c1 && c2 then 1 else 0)%nat ∧
  count is_capability_probe t = (if c1 && c2 && c3 then 1 else 0)%nat ∧
  count (is_pref_read "RecoveryKeyFile") t
    = (if c1 && c2 && c3 && c4 then 1 else 0)%nat ∧
  (count is_plist_read t ≤ if c1 && c2 && c3 && c4 then 1 else 0)%nat.
Proof.
  cbn zeta.
  pose proof (can_attempt_auth_restart_run w) as Hrun. cbn zeta in Hrun.
  rewrite (run_pair can_attempt_auth_restart) in Hrun. revert Hrun.
  generalize (trace can_attempt_auth_restart w)
    (outcome can_attempt_auth_restart w).
  intros tg og Hrun.
  rewrite filevault_is_active_outcome, supports_auth_restart_outcome.
  pose proof (fv_active_starts w) as Hfs.
  pose proof (capable_starts w) as Hcs.
  unfold once_started in *.
  split. { destruct (fv_active w), (starts w active_cmd);
           split; try done; by intros H; specialize (Hfs H). }
  split. { destruct (capable w), (starts w support_cmd);
           split; try done; by intros H; specialize (Hcs H). }
  split; [by intros ->|]. split; [by intros ->|].
  clear Hfs Hcs.
  destruct (tuple_ge (os_version w) [10; 8]); cbn; [|gate_case].
  destruct (truthy (pref_value w "PerformAuthRestarts")) eqn:Hp; cbn;
    [|gate_case].
  destruct (fv_active w); cbn;
    [|destruct (starts w active_cmd); gate_case].
  destruct (capable w); cbn;
    [|destruct (starts w support_cmd); gate_case].
  simplify_eq. cbn. split; [|split; [|split]].
  - destruct (outcome get_auth_restart_key w) as [k|e]; split.
    + intros [= Hk]. repeat split; try done. exists k. split; [done|].
      by destruct k.
    + intros (_ & _ & _ & _ & k' & [= <-] & Hne). do 2 f_equal.
      by destruct k.
    + done.
    + intros (_ & _ & _ & _ & k' & ? & _). done.
  - intros v Hv. destruct (outcome get_auth_restart_key w) as [k|e]; [|done].
    injection Hv as <-. cbn. destruct (text_truthy k); cbn; split; done.
  - done.
  - repeat split; count_events;
      destruct (truthy (pref_value w "RecoveryKeyFile")); cbn; lia.
Qed.

(** The gate on an eligible machine, and on one whose status command
    fails. *)
Lemma can_attempt_auth_restart_spec_witness :
  outcome can_attempt_auth_restart (mojave "") = Ret (VBool true) ∧
  (∀ v, outcome can_attempt_auth_restart (mojave_isactive (1, "")) = Ret v →
        truthy v = false).
Proof.
  split.
  - destruct (can_attempt_auth_restart_spec (mojave ""))
      as (_ & _ & _ & _ & H & _).
    apply H. repeat split; try by vm_compute.
    exists (u "ABCD-1234"). split; by vm_compute.
  - intros v Hv.
    destruct (can_attempt_auth_restart_spec (mojave_isactive (1, "")))
      as (_ & _ & _ & _ & _ & H & _).
    destruct (truthy v) eqn:Ht; [|done].
    apply (H v Hv) in Ht. subst v. by vm_compute in Hv.
Defined.

(** ** AuthorizedRestartExecutor *)

Lemma capable_true (w : World) :
  outcome supports_auth_restart w = Ret true → capable w = true.
Proof.
  rewrite supports_auth_restart_outcome. unfold once_started.
  destruct (starts w support_cmd); [by intros [= ->] | done].
Qed.

Lemma capable_false (w : World) :
  outcome supports_auth_restart w = Ret false →
  capable w = false ∧ starts w support_cmd = true.
Proof.
  rewrite supports_auth_restart_outcome. unfold once_started.
  destruct (starts w support_cmd); [by intros [= ->] | done].
Qed.

Lemma fv_active_true (w : World) :
  outcome filevault_is_active w = Ret true → fv_active w = true.
Proof.
  rewrite filevault_is_active_outcome. unfold once_started.
  destruct (starts w active_cmd); [by intros [= ->] | done].
Qed.

Lemma perform_auth_restart_unsupported (w : World) :
  capable w = false → starts w support_cmd = true →
  perform_auth_restart w =
  (executor_entry :: trace supports_auth_restart w ++ [executor_unsupported],
   Ret false).
Proof.
  intros H Hs. rewrite perform_auth_restart_run, H. unfold once_started.
  by rewrite Hs.
Qed.

Lemma perform_auth_restart_no_key (w : World) :
  capable w = true → outcome get_auth_restart_key w = Ret [] →
  perform_auth_restart w =
  (executor_entry :: trace supports_auth_restart w ++
   executor_supported :: trace get_auth_restart_key w, Ret false).
Proof. intros H Hk. by rewrite perform_auth_restart_run, H, Hk. Qed.

(** The executor up to the call that spawns the helper, and from it. *)
Lemma perform_auth_restart_helper (w : World) (k : text) :
  capable w = true → outcome get_auth_restart_key w = Ret k → k ≠ [] →
  let attempt :=
    (executor_entry :: trace supports_auth_restart w ++
     executor_supported :: trace get_auth_restart_key w) ++
    [WritePlistToString (password_plist k);
     Display Info "Attempting an Authorized Restart now..." [];
     Popen authrestart_cmd] in
  perform_auth_restart w =
  if starts w authrestart_cmd then
    (attempt ++
     [Communicate authrestart_cmd (helper_input w k); GetOsVersion] ++
     (if classify (os_version w) (helper_stderr w k) then []
      else [Display Error (helper_stderr w k) []]),
     Ret (classify (os_version w) (helper_stderr w k)))
  else (attempt, Raise OSError).
Proof.
  intros H Hk Hne. rewrite perform_auth_restart_run, H, Hk. cbn zeta.
  by destruct k.
Qed.

(** C6. [perform_auth_restart] first calls [supports_auth_restart()].
    Where that returns [False] the executor returns [False] having done
    nothing but the probe and a warning: no preference is read, no
    document is read, the helper is not spawned.  Where it returns
    [True] the executor calls [get_auth_restart_key()], and where that
    returns the empty string the executor returns [False] right after
    the lookup: the only process it has started is the capability
    probe's, and the helper is not spawned. *)
Theorem perform_auth_restart_guards (w : World) :
  let t := trace perform_auth_restart w in
  (outcome supports_auth_restart w = Ret false →
   outcome perform_auth_restart w = Ret false ∧
   t = executor_entry :: trace supports_auth_restart w
       ++ [executor_unsupported] ∧
   count (is_pref_read "RecoveryKeyFile") t = 0%nat ∧
   count is_plist_read t = 0%nat ∧
   count is_helper_spawn t = 0%nat) ∧
  (outcome supports_auth_restart w = Ret true →
   outcome get_auth_restart_key w = Ret [] →
   outcome perform_auth_restart w = Ret false ∧
   t = executor_entry :: trace supports_auth_restart w
       ++ executor_supported :: trace get_auth_restart_key w ∧
   count is_process (trace get_auth_restart_key w) = 0%nat ∧
   count is_process t = count is_process (trace supports_auth_restart w) ∧
   count is_process t = 1%nat ∧
   count is_helper_spawn t = 0%nat).
Proof.
  cbn zeta. split.
  - intros [Hc Hs]%capable_false.
    pose proof (perform_auth_restart_unsupported w Hc Hs) as Hrun.
    rewrite (run_pair perform_auth_restart) in Hrun.
    apply pair_equal_spec in Hrun as [-> ->].
    repeat split; count_events; lia.
  - intros Hs%capable_true Hk.
    pose proof (perform_auth_restart_no_key w Hs Hk) as Hrun.
    rewrite (run_pair perform_auth_restart) in Hrun.
    apply pair_equal_spec in Hrun as [-> ->].
    repeat split; count_events;
      destruct (truthy (pref_value w "RecoveryKeyFile")); cbn; lia.
Qed.

(** The executor where authorized restart is not supported, and where
    the key on file is blank. *)
Lemma perform_auth_restart_guards_witness :
  outcome perform_auth_restart (mojave_supports (0, "false" +:+ nl))
    = Ret false ∧
  count is_helper_spawn
    (trace perform_auth_restart (mojave_supports (0, "false" +:+ nl)))
    = 0%nat ∧
  outcome perform_auth_restart (mojave_doc (key_doc (u "   "))) = Ret false ∧
  count is_process
    (trace perform_auth_restart (mojave_doc (key_doc (u "   "))))
    = 1%nat.
Proof.
  destruct (perform_auth_restart_guards
              (mojave_supports (0, "false" +:+ nl))) as (H1 & _).
  destruct (perform_auth_restart_guards (mojave_doc (key_doc (u "   "))))
    as (_ & H2).
  destruct H1 as (Ho & _ & _ & _ & Hh); [by vm_compute|].
  destruct H2 as (Ho' & _ & _ & _ & Hp & _); [by vm_compute..|].
  done.
Defined.

(** C2. Once the helper has run, [perform_auth_restart] reads its
    stderr in this order: on an OS version of at least (10, 12), a
    stderr that contains [System is being restarted] is a success;
    otherwise a non-empty stderr is a failure, and that stderr is what
    the executor logs last, as an error; otherwise (an empty stderr) it
    is a success.  So [System is being restarted.] is a success on
    (10, 13, 0) and a failure on (10, 11, 0), and an empty stderr is a
    success on every OS version. *)
Theorem perform_auth_restart_classification (w : World) (k : text) :
  outcome supports_auth_restart w = Ret true →
  outcome get_auth_restart_key w = Ret k →
  k ≠ [] →
  starts w authrestart_cmd = true →
  let ver := os_version w in
  let err := helper_stderr w k in
  let restarting := str_in "System is being restarted" err in
  (tuple_ge ver [10; 12] = true → restarting = true →
   outcome perform_auth_restart w = Ret true) ∧
  (tuple_ge ver [10; 12] && restarting = false → err ≠ "" →
   outcome perform_auth_restart w = Ret false ∧
   last (trace perform_auth_restart w) = Some (Display Error err [])) ∧
  (tuple_ge ver [10; 12] && restarting = false → err = "" →
   outcome perform_auth_restart w = Ret true) ∧
  (ver = [10; 13; 0] → err = "System is being restarted." →
   outcome perform_auth_restart w = Ret true) ∧
  (ver = [10; 11; 0] → err = "System is being restarted." →
   outcome perform_auth_restart w = Ret false) ∧
  (err = "" → outcome perform_auth_restart w = Ret true).
Proof.
  intros Hs%capable_true Hk Hne Hst. cbn zeta.
  pose proof (perform_auth_restart_helper w k Hs Hk Hne) as Hrun.
  cbn zeta in Hrun. rewrite Hst in Hrun.
  rewrite (run_pair perform_auth_restart) in Hrun.
  apply pair_equal_spec in Hrun as [-> ->]. unfold classify.
  split; [|split; [|split; [|split; [|split]]]].
  - by intros -> ->.
  - intros -> Herr. unfold str_truthy.
    destruct (String.eqb_spec (helper_stderr w k) ""); [done|]. cbn [negb].
    split; [done|]. by rewrite !last_app.
  - intros -> ->. done.
  - by intros -> ->.
  - by intros -> ->.
  - intros ->. cbn. by rewrite andb_false_r.
Qed.

(** The boundary scenarios of the classification. *)
Lemma perform_auth_restart_classification_witness :
  outcome perform_auth_restart
    (on_version [10; 13; 0] "System is being restarted.") = Ret true ∧
  outcome perform_auth_restart
    (on_version [10; 11; 0] "System is being restarted.") = Ret false ∧
  outcome perform_auth_restart (on_version [10; 9; 5] "") = Ret true ∧
  outcome perform_auth_restart (on_version [10; 14; 0] "Error: bad key")
    = Ret false.
Proof.
  split; [|split; [|split]].
  - destruct (perform_auth_restart_classification
                (on_version [10; 13; 0] "System is being restarted.")
                (u "ABCD-1234")) as (_ & _ & _ & H & _);
      [by vm_compute..|].
    apply H; by vm_compute.
  - destruct (perform_auth_restart_classification
                (on_version [10; 11; 0] "System is being restarted.")
                (u "ABCD-1234")) as (_ & _ & _ & _ & H & _);
      [by vm_compute..|].
    apply H; by vm_compute.
  - destruct (perform_auth_restart_classification
                (on_version [10; 9; 5] "") (u "ABCD-1234"))
      as (_ & _ & _ & _ & _ & H);
      [by vm_compute..|].
    apply H; by vm_compute.
  - destruct (perform_auth_restart_classification
                (on_version [10; 14; 0] "Error: bad key") (u "ABCD-1234"))
      as (_ & H & _);
      [by vm_compute..|].
    apply H; by vm_compute.
Defined.

Lemma supports_auth_restart_version (ver : list Z) (w : World) :
  supports_auth_restart (with_os_version ver w) = supports_auth_restart w.
Proof.
  by rewrite !supports_auth_restart_run, !supports_auth_restart_trace.
Qed.

Lemma get_auth_restart_key_version (ver : list Z) (w : World) :
  get_auth_restart_key (with_os_version ver w) = get_auth_restart_key w.
Proof. by rewrite !get_auth_restart_key_run. Qed.

(** C10. [perform_auth_restart] has no OS version floor.  On every OS
    version, where the capability probe returns [True] and the lookup a
    non-empty credential, the executor calls [Popen] on the helper,
    once; what it does up to there is the same on every OS version and
    includes no OS version query.  The helper, once started, is fed the
    serialized [{Password: credential}]; the one OS version query comes
    right after, and the result depends on the version only through its
    comparison with (10, 12). *)
Theorem perform_auth_restart_any_version (w : World) (k : text) :
  outcome supports_auth_restart w = Ret true →
  outcome get_auth_restart_key w = Ret k →
  k ≠ [] →
  let before :=
    executor_entry :: trace supports_auth_restart w ++
    executor_supported :: trace get_auth_restart_key w ++
    [WritePlistToString (VDict [("Password", VStr k)]);
     Display Info "Attempting an Authorized Restart now..." []] in
  let spawn := Popen authrestart_cmd in
  let feed :=
    Communicate authrestart_cmd
      (serialize w (VDict [("Password", VStr k)])) in
  count is_os_query before = 0%nat ∧
  ∀ ver,
    let t := trace perform_auth_restart (with_os_version ver w) in
    (∃ after, t = before ++ spawn :: after) ∧
    count is_helper_spawn t = 1%nat ∧
    (starts w authrestart_cmd = true →
     (∃ after, t = before ++ spawn :: feed :: GetOsVersion :: after ∧
               count is_os_query after = 0%nat) ∧
     outcome perform_auth_restart (with_os_version ver w)
     = Ret (classify ver (helper_stderr w k))) ∧
    (starts w authrestart_cmd = false →
     t = before ++ [spawn] ∧
     outcome perform_auth_restart (with_os_version ver w) = Raise OSError) ∧
    (∀ ver', tuple_ge ver' [10; 12] = tuple_ge ver [10; 12] →
             outcome perform_auth_restart (with_os_version ver' w)
             = outcome perform_auth_restart (with_os_version ver w)).
Proof.
  intros Hs%capable_true Hk Hne. cbn zeta. split.
  { count_events. destruct (truthy _); cbn; lia. }
  assert (Hrun : ∀ ver,
    perform_auth_restart (with_os_version ver w) =
    let attempt :=
      (executor_entry :: trace supports_auth_restart w ++
       executor_supported :: trace get_auth_restart_key w) ++
      [WritePlistToString (password_plist k);
       Display Info "Attempting an Authorized Restart now..." [];
       Popen authrestart_cmd] in
    if starts w authrestart_cmd then
      (attempt ++
       [Communicate authrestart_cmd (helper_input w k); GetOsVersion] ++
       (if classify ver (helper_stderr w k) then []
        else [Display Error (helper_stderr w k) []]),
       Ret (classify ver (helper_stderr w k)))
    else (attempt, Raise OSError)).
  { intros ver.
    rewrite (perform_auth_restart_helper (with_os_version ver w) k);
      [| exact Hs | unfold outcome; by rewrite get_auth_restart_key_version
       | exact Hne].
    unfold trace.
    by rewrite supports_auth_restart_version, get_auth_restart_key_version. }
  cbn zeta in Hrun.
  assert (Hout : ∀ ver,
    outcome perform_auth_restart (with_os_version ver w) =
    if starts w authrestart_cmd then Ret (classify ver (helper_stderr w k))
    else Raise OSError).
  { intros ver. unfold outcome. rewrite Hrun.
    by destruct (starts w authrestart_cmd). }
  assert (Hts : count is_helper_spawn (trace supports_auth_restart w) = 0%nat)
    by by count_events.
  assert (Htk : count is_helper_spawn (trace get_auth_restart_key w) = 0%nat).
  { count_events. by destruct (truthy _). }
  intros ver. specialize (Hrun ver).
  rewrite (run_pair perform_auth_restart) in Hrun.
  rewrite !Hout. revert Hrun.
  generalize (trace perform_auth_restart (with_os_version ver w))
    (outcome perform_auth_restart (with_os_version ver w)).
  unfold password_plist, helper_input, executor_entry, executor_supported.
  revert Hts Htk.
  generalize (trace supports_auth_restart w) (trace get_auth_restart_key w).
  intros ts tk Hts Htk t o Hrun.
  assert (Hshape : ∀ (x y z : event) (rest : list event),
    (x :: ts ++ y :: tk) ++ [WritePlistToString (VDict [("Password", VStr k)]);
                            z; Popen authrestart_cmd] ++ rest
    = (x :: ts ++ y :: tk ++ [WritePlistToString (VDict [("Password", VStr k)]);
                              z]) ++ Popen authrestart_cmd :: rest).
  { intros. cbn [app]. rewrite <- !app_assoc. cbn [app].
    rewrite <- !app_assoc. reflexivity. }
  destruct (starts w authrestart_cmd);
    apply pair_equal_spec in Hrun as [-> ->].
  - rewrite <- app_assoc, Hshape.
    split; [by eexists|]. split; [|split; [|split]].
    + repeat (progress (rewrite ?count_app; cbn [count])).
      rewrite Hts, Htk. decide_cmds. by destruct (classify _ _).
    + intros _. split; [|done]. eexists. split; [reflexivity|].
      by destruct (classify _ _).
    + done.
    + intros ver' Hge. rewrite Hout. unfold classify. by rewrite Hge.
  - rewrite <- (app_nil_r (_ ++ [_; _; _])), <- app_assoc, Hshape.
    split; [by eexists|]. split; [|split; [|split]].
    + repeat (progress (rewrite ?count_app; cbn [count])).
      rewrite Hts, Htk. by decide_cmds.
    + done.
    + done.
    + intros ver' _. by rewrite Hout.
Qed.

(** The executor on Mac OS X 10.7.5, below the floor of the gate. *)
Lemma perform_auth_restart_any_version_witness :
  count is_helper_spawn
    (trace perform_auth_restart (with_os_version [10; 7; 5] (mojave "")))
  = 1%nat ∧
  outcome perform_auth_restart (with_os_version [10; 7; 5] (mojave ""))
  = Ret true.
Proof.
  destruct (perform_auth_restart_any_version (mojave "") (u "ABCD-1234"))
    as (_ & H); [by vm_compute..|].
  destruct (H [10; 7; 5]) as (_ & Hc & Ho & _).
  split; [exact Hc | apply Ho; by vm_compute].
Defined.

(** ** RestartDecisionFlow *)

(** What the executor does to the two restart mechanisms. *)
Lemma perform_auth_restart_counts (w : World) :
  let t := trace perform_auth_restart w in
  count is_executor_entry t = 1%nat ∧
  plain_restarts t = 0%nat ∧
  helper_invocations t = (if helper_reached w then 1 else 0)%nat ∧
  (executor_ok w = true → helper_reached w = true).
Proof.
  cbn zeta. unfold helper_reached, executor_ok, plain_restarts,
    helper_invocations.
  pose proof (perform_auth_restart_run w) as Hrun. cbn zeta in Hrun.
  rewrite (run_pair perform_auth_restart) in Hrun. revert Hrun.
  generalize (trace perform_auth_restart w) (outcome perform_auth_restart w).
  intros t o Hrun. unfold once_started in Hrun.
  destruct (capable w); cbn [andb];
    [destruct (outcome get_auth_restart_key w) as [k|e];
     [destruct (text_truthy k);
      [destruct (starts w authrestart_cmd); [destruct (classify _ _)|]|]|]
    |destruct (starts w support_cmd)];
    simplify_eq; (split; [|split; [|split]]); try done.
  all: try (entry_count; done).
  all: count_events; try destruct (truthy (pref_value w "RecoveryKeyFile"));
    cbn; lia.
Qed.

(** What the flow does to the two restart mechanisms, and where the
    executor's steps sit in its trace. *)
Lemma do_authorized_or_normal_restart_counts (w : World) :
  let t := trace do_authorized_or_normal_restart w in
  count is_executor_entry t = (if restricted_eligible w then 1 else 0)%nat ∧
  helper_invocations t
  = (if restricted_eligible w && helper_reached w then 1 else 0)%nat ∧
  (plain_restarts t ≤ 1)%nat ∧
  (outcome do_authorized_or_normal_restart w = Ret tt →
   plain_restarts t
   = (if restricted_eligible w && executor_ok w then 0 else 1)%nat).
Proof.
  cbn zeta. unfold executor_ok.
  destruct (perform_auth_restart_counts w) as (He & Hp & Hh & _).
  pose proof (deciding_trace_no_entry w) as Hd.
  pose proof (deciding_trace_count is_helper_spawn w) as Hdh.
  pose proof (deciding_trace_count is_plain_restart w) as Hdp.
  unfold plain_restarts, helper_invocations in *.
  pose proof (do_authorized_or_normal_restart_run w) as Hrun.
  cbn zeta in Hrun.
  rewrite (run_pair do_authorized_or_normal_restart) in Hrun. revert Hrun.
  generalize (trace do_authorized_or_normal_restart w)
    (outcome do_authorized_or_normal_restart w).
  intros t o Hrun.
  destruct (restricted_eligible w); cbn [andb];
    [destruct (outcome perform_auth_restart w) as [[]|e]
    |destruct (configured w && negb (starts w active_cmd))];
    apply pair_equal_spec in Hrun as [-> ->]; unfold fallback_trace;
    repeat (progress (rewrite ?count_app; cbn [count]));
    rewrite ?He, ?Hp, ?Hh, ?Hd, ?Hdh, ?Hdp by done;
    decide_cmds; repeat split; intros; try done; try lia; cbn; lia.
Qed.

(** C5. While deciding, the flow reads the two preferences, asks for
    the OS version and runs the FileVault status probe, nothing else: it
    runs neither the capability probe nor the helper and reads no
    credential document.  Its check is [PerformAuthRestarts] set and
    [RecoveryKeyFile] set and OS version at least (10, 8) and
    [filevault_is_active()] true; the executor is entered, right after
    the deciding steps, exactly when the check holds, and where it does
    not hold the flow goes straight to the plain restart (unless the
    status probe raised). *)
Theorem deciding_is_restricted (w : World) :
  let eligible :=
    truthy (pref_value w "PerformAuthRestarts")
    && truthy (pref_value w "RecoveryKeyFile")
    && tuple_ge (os_version w) [10; 8]
    && fv_active w in
  let deciding :=
    [Display Info "Restarting now." []; GetOsVersion;
     Pref "PerformAuthRestarts"] ++
    (if truthy (pref_value w "PerformAuthRestarts")
     then [Pref "RecoveryKeyFile"] else []) ++
    (if truthy (pref_value w "PerformAuthRestarts")
        && truthy (pref_value w "RecoveryKeyFile")
        && tuple_ge (os_version w) [10; 8]
     then trace filevault_is_active w else []) in
  let t := trace do_authorized_or_normal_restart w in
  (outcome filevault_is_active w = Ret true ↔ fv_active w = true) ∧
  (starts w active_cmd = true →
   outcome filevault_is_active w = Ret (fv_active w)) ∧
  count is_capability_probe deciding = 0%nat ∧
  count is_plist_read deciding = 0%nat ∧
  count is_helper_spawn deciding = 0%nat ∧
  count is_executor_entry deciding = 0%nat ∧
  (eligible = true →
   ∃ after,
     t = deciding ++
         Display Debug1 "Configured to perform AuthRestarts..." []
         :: trace perform_auth_restart w ++ after) ∧
  (eligible = false →
   (∀ e, outcome filevault_is_active w ≠ Raise e) →
   t = deciding ++
       [Display Debug1 "Performing a regular restart..." [];
        Call shutdown_cmd]) ∧
  (eligible = false → t = deciding ∨
   t = deciding ++
       [Display Debug1 "Performing a regular restart..." [];
        Call shutdown_cmd]) ∧
  count is_executor_entry t = (if eligible then 1 else 0)%nat.
Proof.
  cbn zeta.
  change (truthy (pref_value w "PerformAuthRestarts")
          && truthy (pref_value w "RecoveryKeyFile")
          && tuple_ge (os_version w) [10; 8] && fv_active w)
    with (restricted_eligible w).
  change ([Display Info "Restarting now." []; GetOsVersion;
           Pref "PerformAuthRestarts"] ++
          (if truthy (pref_value w "PerformAuthRestarts")
           then [Pref "RecoveryKeyFile"] else []) ++
          (if truthy (pref_value w "PerformAuthRestarts")
              && truthy (pref_value w "RecoveryKeyFile")
              && tuple_ge (os_version w) [10; 8]
           then trace filevault_is_active w else []))
    with (deciding_trace w).
  split.
  { split; [apply fv_active_true|]. intros H.
    rewrite filevault_is_active_outcome. unfold once_started.
    by rewrite (fv_active_starts w H), H. }
  split.
  { intros H. rewrite filevault_is_active_outcome. unfold once_started.
    by rewrite H. }
  split; [by apply deciding_trace_count|].
  split; [by apply deciding_trace_count|].
  split; [by apply deciding_trace_count|].
  split; [apply deciding_trace_no_entry|].
  split; [|split; [|split]].
  - intros He. unfold trace at 1.
    rewrite do_authorized_or_normal_restart_run, He. cbn zeta.
    destruct (outcome perform_auth_restart w) as [[]|e]; cbn [fst].
    + exists []. by rewrite app_nil_r.
    + eexists. rewrite <- app_assoc. cbn. done.
    + exists []. by rewrite app_nil_r.
  - intros He Hfv. unfold trace at 1.
    rewrite do_authorized_or_normal_restart_run, He.
    destruct (starts w active_cmd) eqn:Hst;
      [by rewrite andb_false_r|].
    exfalso. apply (Hfv OSError).
    rewrite filevault_is_active_outcome. unfold once_started. by rewrite Hst.
  - intros He. unfold trace at 1 2.
    rewrite do_authorized_or_normal_restart_run, He.
    destruct (configured w && negb (starts w active_cmd)); [by left | by right].
  - apply do_authorized_or_normal_restart_counts.
Qed.

(** The flow on an eligible machine and on one with FileVault off. *)
Lemma deciding_is_restricted_witness :
  count is_executor_entry
    (trace do_authorized_or_normal_restart (mojave "")) = 1%nat ∧
  trace do_authorized_or_normal_restart
    (mojave_isactive (1, "false" +:+ nl)) =
  [Display Info "Restarting now." []; GetOsVersion;
   Pref "PerformAuthRestarts"; Pref "RecoveryKeyFile";
   Display Debug1 "Checking if FileVault is enabled..." [];
   CheckOutput active_cmd;
   Display Warning "FileVault appears to be disabled..." [];
   Display Debug1 "Performing a regular restart..." [];
   Call shutdown_cmd].
Proof.
  split.
  - destruct (deciding_is_restricted (mojave ""))
      as (_ & _ & _ & _ & _ & _ & _ & _ & _ & H).
    exact H.
  - destruct (deciding_is_restricted (mojave_isactive (1, "false" +:+ nl)))
      as (_ & _ & _ & _ & _ & _ & _ & H & _).
    rewrite H; [by vm_compute | by vm_compute |].
    intros e He. by vm_compute in He.
Defined.

(** A [RecoveryKey] that is not a string has no [strip]: the
    [AttributeError] is none of the exceptions the lookup names, so it
    leaves the lookup, the executor and the flow, and no restart is
    started. *)
Example restart_key_not_a_string :
  let w := mojave_doc (Some (VDict [("RecoveryKey", VInt 12345)])) in
  outcome get_auth_restart_key w = Raise AttributeError ∧
  outcome do_authorized_or_normal_restart w = Raise AttributeError ∧
  helper_invocations (trace do_authorized_or_normal_restart w) = 0%nat ∧
  plain_restarts (trace do_authorized_or_normal_restart w) = 0%nat.
Proof. by vm_compute. Qed.

(** C1 fails as stated.  Where the helper reports an error, the flow
    has spawned the helper and then runs the plain restart as well: two
    mechanisms, not one. *)
Lemma both_mechanisms_invoked :
  helper_invocations
    (trace do_authorized_or_normal_restart (mojave "Error: bad key"))
  = 1%nat ∧
  plain_restarts
    (trace do_authorized_or_normal_restart (mojave "Error: bad key"))
  = 1%nat ∧
  ¬ exactly_one_mechanism
      (trace do_authorized_or_normal_restart (mojave "Error: bad key")).
Proof.
  split; [by vm_compute|]. split; [by vm_compute|].
  intros [[_ H] | [H _]]; vm_compute in H; discriminate.
Qed.

(** C1, as the code has it.  A call of the flow that returns has
    invoked at least one restart mechanism, and each at most once.  The
    plain restart is run exactly when the executor was not entered or
    did not return [True]; the helper is spawned exactly when the
    executor was entered and got as far as the helper.  Both are invoked
    exactly when the helper was spawned and the executor then returned
    [False]. *)
Theorem restart_mechanisms (w : World) :
  outcome do_authorized_or_normal_restart w = Ret tt →
  let t := trace do_authorized_or_normal_restart w in
  (1 ≤ helper_invocations t + plain_restarts t)%nat ∧
  (helper_invocations t ≤ 1)%nat ∧
  (plain_restarts t ≤ 1)%nat ∧
  plain_restarts t
  = (if restricted_eligible w && executor_ok w then 0 else 1)%nat ∧
  helper_invocations t
  = (if restricted_eligible w && helper_reached w then 1 else 0)%nat ∧
  (helper_invocations t = 1%nat ∧ plain_restarts t = 1%nat ↔
   restricted_eligible w = true ∧ helper_reached w = true ∧
   outcome perform_auth_restart w = Ret false).
Proof.
  intros Ho. cbn zeta.
  destruct (do_authorized_or_normal_restart_counts w) as (_ & Hh & _ & Hp).
  destruct (perform_auth_restart_counts w) as (_ & _ & _ & Hok).
  specialize (Hp Ho). rewrite Hh, Hp.
  assert (Hexe : restricted_eligible w = true →
                 ∃ b, outcome perform_auth_restart w = Ret b).
  { intros He. revert Ho. unfold outcome at 1.
    rewrite do_authorized_or_normal_restart_run, He. cbn zeta.
    destruct (outcome perform_auth_restart w) as [b|e]; [by eexists | done]. }
  unfold executor_ok in *.
  destruct (restricted_eligible w); cbn [andb].
  2: { repeat split; intros; destruct_and?; try lia; done. }
  destruct (Hexe eq_refl) as [b Hb]. rewrite Hb in *.
  destruct b, (helper_reached w) eqn:Hr; cbn;
    repeat split; intros; destruct_and?; try lia; try done;
    by specialize (Hok eq_refl).
Qed.

(** The flow where the helper fails, where it succeeds, and where
    nothing is configured. *)
Lemma restart_mechanisms_witness :
  helper_invocations
    (trace do_authorized_or_normal_restart (mojave "Error: bad key"))
  = 1%nat ∧
  plain_restarts
    (trace do_authorized_or_normal_restart (mojave "Error: bad key"))
  = 1%nat ∧
  plain_restarts (trace do_authorized_or_normal_restart (mojave ""))
  = 0%nat ∧
  plain_restarts
    (trace do_authorized_or_normal_restart (mojave_prefs ∅)) = 1%nat.
Proof.
  destruct (restart_mechanisms (mojave "Error: bad key"))
    as (_ & _ & _ & _ & _ & H1); [by vm_compute|].
  destruct (restart_mechanisms (mojave "")) as (_ & _ & _ & H2 & _);
    [by vm_compute|].
  destruct (restart_mechanisms (mojave_prefs ∅)) as (_ & _ & _ & H3 & _);
    [by vm_compute|].
  destruct H1 as [_ [Hh Hp]]; [by vm_compute|].
  split; [exact Hh|]. split; [exact Hp|]. split; [exact H2 | exact H3].
Defined.

(** C4. On macOS (10, 14, 0) with [PerformAuthRestarts] true, a
    [RecoveryKeyFile] set, FileVault active, authorized restart
    supported and a non-empty credential: where the executor returns
    [True] the flow has spawned the helper once and never runs the plain
    restart; where it returns [False] the flow has spawned the helper
    once and, after it, runs the plain restart once.  Once the helper
    has started, the executor does one or the other. *)
Theorem restart_flow_end_to_end (w : World) (path k : text) :
  pref_value w "PerformAuthRestarts" = VBool true →
  pref_value w "RecoveryKeyFile" = VStr path →
  path ≠ [] →
  os_version w = [10; 14; 0] →
  outcome filevault_is_active w = Ret true →
  outcome supports_auth_restart w = Ret true →
  outcome get_auth_restart_key w = Ret k →
  k ≠ [] →
  let t := trace do_authorized_or_normal_restart w in
  (starts w authrestart_cmd = true →
   outcome perform_auth_restart w = Ret true ∨
   outcome perform_auth_restart w = Ret false) ∧
  (outcome perform_auth_restart w = Ret true →
   outcome do_authorized_or_normal_restart w = Ret tt ∧
   helper_invocations t = 1%nat ∧ plain_restarts t = 0%nat) ∧
  (outcome perform_auth_restart w = Ret false →
   (starts w shutdown_cmd = true →
    outcome do_authorized_or_normal_restart w = Ret tt) ∧
   helper_invocations t = 1%nat ∧ plain_restarts t = 1%nat ∧
   ∃ t1 t2 input,
     t = t1 ++ Popen authrestart_cmd
            :: Communicate authrestart_cmd input
            :: t2 ++ [Call shutdown_cmd] ∧
     input = serialize w (VDict [("Password", VStr k)])).
Proof.
  intros Hp1 Hp2 Hpath Hver Hfv%fv_active_true Hs%capable_true Hk Hne.
  cbn zeta.
  assert (He : restricted_eligible w = true).
  { unfold restricted_eligible, configured.
    rewrite Hp1, Hp2, Hver, Hfv. cbn. by destruct path. }
  assert (Hr : helper_reached w = true).
  { unfold helper_reached. rewrite Hs, Hk. cbn. by destruct k. }
  destruct (do_authorized_or_normal_restart_counts w) as (_ & Hh & _ & _).
  rewrite He, Hr in Hh. cbn in Hh.
  pose proof (deciding_trace_count is_plain_restart w) as Hdp.
  destruct (perform_auth_restart_counts w) as (_ & Hpp & _ & _).
  pose proof (perform_auth_restart_helper w k Hs Hk Hne) as Hexe.
  cbn zeta in Hexe.
  pose proof (do_authorized_or_normal_restart_run w) as Hrun.
  cbn zeta in Hrun. rewrite He in Hrun.
  rewrite (run_pair perform_auth_restart) in Hexe.
  rewrite (run_pair do_authorized_or_normal_restart) in Hrun.
  unfold plain_restarts in *.
  revert Hrun Hh.
  generalize (trace do_authorized_or_normal_restart w)
    (outcome do_authorized_or_normal_restart w).
  intros t o Hrun Hh.
  destruct (starts w authrestart_cmd);
    [destruct (classify (os_version w) (helper_stderr w k))|];
    apply pair_equal_spec in Hexe as [Ht Ho]; rewrite Ho in *;
    apply pair_equal_spec in Hrun as [-> ->].
  - split; [by left|]. split; [|intros [=]].
    intros _. split; [done|]. split; [exact Hh|].
    rewrite count_app. cbn [count]. rewrite Hpp, Hdp by done. done.
  - split; [by right|]. split; [intros [=]|].
    intros _. unfold once_started.
    split; [by intros ->|]. split; [exact Hh|]. split.
    { unfold fallback_trace.
      repeat (progress (rewrite ?count_app; cbn [count])).
      rewrite Hpp, Hdp by done. by decide_cmds. }
    exists (deciding_trace w ++
            Display Debug1 "Configured to perform AuthRestarts..." []
            :: (executor_entry :: trace supports_auth_restart w ++
                executor_supported :: trace get_auth_restart_key w) ++
            [WritePlistToString (password_plist k);
             Display Info "Attempting an Authorized Restart now..." []]),
      [GetOsVersion; Display Error (helper_stderr w k) [];
       Display Warning
         "Authorized Restart failed. Performing normal restart..." [];
       Display Debug1 "Performing a regular restart..." []],
      (helper_input w k).
    split; [|reflexivity].
    rewrite Ht. unfold fallback_trace.
    generalize (deciding_trace w) (trace supports_auth_restart w)
      (trace get_auth_restart_key w) (helper_input w k) (helper_stderr w k).
    intros d ts tk i e. clear.
    repeat (progress (rewrite <- ?app_assoc; cbn [app])). reflexivity.
  - split; [done|]. split; intros [=].
Qed.

(** The two end-to-end scenarios on macOS 10.14. *)
Lemma restart_flow_end_to_end_witness :
  (helper_invocations (trace do_authorized_or_normal_restart (mojave ""))
   = 1%nat ∧
   plain_restarts (trace do_authorized_or_normal_restart (mojave ""))
   = 0%nat) ∧
  (helper_invocations
     (trace do_authorized_or_normal_restart (mojave "Error: bad key"))
   = 1%nat ∧
   plain_restarts
     (trace do_authorized_or_normal_restart (mojave "Error: bad key"))
   = 1%nat).
Proof.
  destruct (restart_flow_end_to_end (mojave "")
              (u "/private/var/root/recoverykey.plist") (u "ABCD-1234"))
    as (_ & H1 & _); [by vm_compute..|].
  destruct (restart_flow_end_to_end (mojave "Error: bad key")
              (u "/private/var/root/recoverykey.plist") (u "ABCD-1234"))
    as (_ & _ & H2); [by vm_compute..|].
  split.
  - apply H1. by vm_compute.
  - destruct H2 as (_ & Hh & Hp & _); [by vm_compute|]. by split.
Defined.

(** ** The recovery credential *)

Lemma displayed_redact (t : list event) :
  displayed (map redact t) = displayed t.
Proof.
  induction t as [|e t IH]; [done|].
  cbn [map displayed]. rewrite IH. by destruct e.
Qed.

(** A lookup that finds a credential has read the preference, reported
    the path and read the document, nothing else. *)
Lemma get_auth_restart_key_found (w : World) (k : text) :
  outcome get_auth_restart_key w = Ret k → k ≠ [] →
  trace get_auth_restart_key w =
  [Pref "RecoveryKeyFile";
   Display Debug1 "RecoveryKeyFile preference is set to %s..."
     [pref_value w "RecoveryKeyFile"];
   ReadPlist (pref_value w "RecoveryKeyFile")].
Proof.
  unfold outcome, trace. rewrite get_auth_restart_key_run. cbn zeta.
  intros Hk Hne. destruct (truthy _); cbn in *; [|congruence].
  destruct (plists w _) as [[]|]; cbn in *; try congruence.
  destruct (dict_get d "RecoveryKey") as [[]|]; cbn in *; congruence.
Qed.

Section same_machine.
Variables w1 w2 : World.
Hypothesis Hsame : same_machine w1 w2.

Lemma same_machine_pref (name : string) :
  pref_value w1 name = pref_value w2 name.
Proof. unfold pref_value. by destruct Hsame as (_ & -> & _). Qed.

Lemma same_machine_filevault :
  fv_active w1 = fv_active w2 ∧
  trace filevault_is_active w1 = trace filevault_is_active w2.
Proof.
  destruct Hsame as (_ & _ & Hst & Hrun & _).
  rewrite !filevault_is_active_trace.
  unfold fv_active, isactive_status, isactive_output.
  by rewrite (Hrun active_cmd), (Hst active_cmd).
Qed.

Lemma same_machine_supports :
  capable w1 = capable w2 ∧
  trace supports_auth_restart w1 = trace supports_auth_restart w2.
Proof.
  destruct Hsame as (_ & _ & Hst & Hrun & _).
  rewrite !supports_auth_restart_trace.
  unfold capable, supports_status, supports_output.
  by rewrite (Hrun support_cmd), (Hst support_cmd).
Qed.

Lemma same_machine_deciding :
  restricted_eligible w1 = restricted_eligible w2 ∧
  configured w1 = configured w2 ∧
  deciding_trace w1 = deciding_trace w2.
Proof.
  destruct same_machine_filevault as [Hf Ht].
  unfold restricted_eligible, deciding_trace, configured.
  rewrite !same_machine_pref, Hf, Ht.
  by destruct Hsame as (-> & _).
Qed.

Variables k1 k2 : text.
Hypothesis Hk1 : outcome get_auth_restart_key w1 = Ret k1.
Hypothesis Hne1 : k1 ≠ [].
Hypothesis Hk2 : outcome get_auth_restart_key w2 = Ret k2.
Hypothesis Hne2 : k2 ≠ [].
Hypothesis Herr : helper_stderr w1 k1 = helper_stderr w2 k2.

Lemma same_machine_executor :
  map redact (trace perform_auth_restart w1)
  = map redact (trace perform_auth_restart w2) ∧
  outcome perform_auth_restart w1 = outcome perform_auth_restart w2.
Proof.
  destruct same_machine_supports as [Hc Ht].
  pose proof (get_auth_restart_key_found w1 k1 Hk1 Hne1) as Hf1.
  pose proof (get_auth_restart_key_found w2 k2 Hk2 Hne2) as Hf2.
  rewrite same_machine_pref in Hf1.
  destruct Hsame as (Hver & _ & Hst & _).
  destruct (capable w2) eqn:Hc2.
  - pose proof (perform_auth_restart_helper w1 k1 Hc Hk1 Hne1) as H1.
    pose proof (perform_auth_restart_helper w2 k2 Hc2 Hk2 Hne2) as H2.
    cbn zeta in H1, H2.
    rewrite (run_pair perform_auth_restart) in H1, H2.
    rewrite (Hst authrestart_cmd), Hf1, Ht, Herr, Hver in H1.
    rewrite Hf2 in H2.
    destruct (starts w2 authrestart_cmd);
      apply pair_equal_spec in H1 as [-> ->];
      apply pair_equal_spec in H2 as [-> ->];
      (split; [|done]);
      repeat (progress (rewrite ?map_app; cbn [map redact app]));
      reflexivity.
  - pose proof (perform_auth_restart_run w1) as H1.
    pose proof (perform_auth_restart_run w2) as H2.
    cbn zeta in H1, H2.
    rewrite (run_pair perform_auth_restart) in H1, H2.
    rewrite Hc in H1. rewrite Hc2 in H2.
    apply pair_equal_spec in H1 as [-> ->].
    apply pair_equal_spec in H2 as [-> ->].
    unfold once_started. by rewrite Ht, (Hst support_cmd).
Qed.

Lemma same_machine_flow :
  map redact (trace do_authorized_or_normal_restart w1)
  = map redact (trace do_authorized_or_normal_restart w2) ∧
  outcome do_authorized_or_normal_restart w1
  = outcome do_authorized_or_normal_restart w2.
Proof.
  destruct same_machine_deciding as (He & Hc & Hd).
  destruct same_machine_executor as [Ht Ho].
  destruct Hsame as (_ & _ & Hst & _).
  pose proof (do_authorized_or_normal_restart_run w1) as H1.
  pose proof (do_authorized_or_normal_restart_run w2) as H2.
  cbn zeta in H1, H2.
  rewrite (run_pair do_authorized_or_normal_restart) in H1, H2.
  unfold once_started in *.
  rewrite He, Hc, Hd, Ho, (Hst active_cmd), (Hst shutdown_cmd) in H1.
  destruct (restricted_eligible w2);
    [destruct (outcome perform_auth_restart w2) as [[]|e]
    |destruct (configured w2 && negb (starts w2 active_cmd))];
    apply pair_equal_spec in H1 as [-> ->];
    apply pair_equal_spec in H2 as [-> ->];
    repeat (progress (rewrite ?map_app; cbn [map])); rewrite ?Ht; done.
Qed.

End same_machine.

(** Where the credential goes: the only data the flow hands to the
    serializer is [{Password: credential}], and the only process it
    feeds through standard input is the helper, with that document
    serialized. *)
Lemma credential_sinks (w : World) (k : text) :
  outcome get_auth_restart_key w = Ret k → k ≠ [] →
  Forall
    (λ e, is_sink e = true →
          e = WritePlistToString (password_plist k) ∨
          e = Communicate authrestart_cmd (helper_input w k))
    (trace do_authorized_or_normal_restart w).
Proof.
  intros Hk Hne.
  assert (Hd : count is_sink (deciding_trace w) = 0%nat)
    by by apply deciding_trace_count.
  assert (He : Forall
    (λ e, is_sink e = true →
          e = WritePlistToString (password_plist k) ∨
          e = Communicate authrestart_cmd (helper_input w k))
    (trace perform_auth_restart w)).
  { unfold trace at 1. rewrite perform_auth_restart_run. cbn zeta.
    rewrite Hk.
    destruct (capable w);
      [destruct (text_truthy k); [destruct (starts w authrestart_cmd)|]|];
      cbn [fst].
    - apply Forall_app. split.
      + apply Forall_app. split.
        * apply count_zero_elem. count_events.
          by destruct (truthy (pref_value w "RecoveryKeyFile")).
        * apply Forall_cons. split; [by left|].
          apply Forall_cons. split; [done|]. by apply Forall_cons.
      + apply Forall_cons. split; [by right|].
        apply Forall_cons. split; [done|].
        destruct (classify _ _); [done|]. by apply Forall_cons.
    - apply Forall_app. split.
      + apply count_zero_elem. count_events.
        by destruct (truthy (pref_value w "RecoveryKeyFile")).
      + apply Forall_cons. split; [by left|].
        apply Forall_cons. split; [done|]. by apply Forall_cons.
    - apply count_zero_elem. count_events.
      by destruct (truthy (pref_value w "RecoveryKeyFile")).
    - apply count_zero_elem. count_events.
      by destruct (starts w support_cmd). }
  unfold trace at 1. rewrite do_authorized_or_normal_restart_run. cbn zeta.
  destruct (restricted_eligible w);
    [destruct (outcome perform_auth_restart w) as [[]|e]
    |destruct (configured w && negb (starts w active_cmd))]; cbn [fst].
  - apply Forall_app. split; [by apply count_zero_elem|].
    by apply Forall_cons.
  - apply Forall_app. split.
    + apply Forall_app. split; [by apply count_zero_elem|].
      by apply Forall_cons.
    + by apply count_zero_elem.
  - apply Forall_app. split; [by apply count_zero_elem|].
    by apply Forall_cons.
  - by apply count_zero_elem.
  - apply Forall_app. split; by apply count_zero_elem.
Qed.

(** C9. The flow never displays the credential: on two machines that
    differ only in the credential on file (and in what the helper makes
    of it on stdout), with the helper writing the same stderr, the flow
    makes the same display calls, returns the same result, and does the
    same things in the same order but for what it hands to the
    serializer and to the helper's standard input.  The only data it
    hands to either is [{Password: credential}], to the helper and to
    no other process; the executor hands back a boolean, so nothing the
    flow does after the executor returns depends on the credential. *)
Theorem credential_confined (w1 w2 : World) (k1 k2 : text) :
  same_machine w1 w2 →
  outcome get_auth_restart_key w1 = Ret k1 → k1 ≠ [] →
  outcome get_auth_restart_key w2 = Ret k2 → k2 ≠ [] →
  helper_stderr w1 k1 = helper_stderr w2 k2 →
  let flow := do_authorized_or_normal_restart in
  displayed (trace flow w1) = displayed (trace flow w2) ∧
  map redact (trace flow w1) = map redact (trace flow w2) ∧
  outcome flow w1 = outcome flow w2 ∧
  outcome perform_auth_restart w1 = outcome perform_auth_restart w2 ∧
  Forall
    (λ e, is_sink e = true →
          e = WritePlistToString (VDict [("Password", VStr k1)]) ∨
          e = Communicate authrestart_cmd
                (serialize w1 (VDict [("Password", VStr k1)])))
    (trace flow w1).
Proof.
  intros Hsame Hk1 Hne1 Hk2 Hne2 Herr. cbn zeta.
  destruct (same_machine_flow w1 w2 Hsame k1 k2 Hk1 Hne1 Hk2 Hne2 Herr)
    as [Ht Ho].
  destruct (same_machine_executor w1 w2 Hsame k1 k2 Hk1 Hne1 Hk2 Hne2 Herr)
    as [_ Hexe].
  split; [|split; [done|split; [done|split; [done|]]]].
  - by rewrite <- (displayed_redact (trace _ w1)), Ht, displayed_redact.
  - by apply credential_sinks.
Qed.

(** Two machines that differ in the recovery key on file. *)
Lemma credential_confined_witness :
  displayed (trace do_authorized_or_normal_restart (mojave "Error: -69594"))
  = displayed
      (trace do_authorized_or_normal_restart
         (machine [10; 14; 0] configured_prefs (0, "true" +:+ nl)
            (0, "true" +:+ nl) (key_doc (u "WXYZ-9876")) "Error: -69594")).
Proof.
  destruct (credential_confined (mojave "Error: -69594")
              (machine [10; 14; 0] configured_prefs (0, "true" +:+ nl)
                 (0, "true" +:+ nl) (key_doc (u "WXYZ-9876"))
                 "Error: -69594")
              (u "ABCD-1234") (u "WXYZ-9876")) as (H & _);
    [| by vm_compute ..| exact H].
  split; [reflexivity|]. split; [reflexivity|].
  split; [intros cmd; reflexivity|].
  split; intros cmd; reflexivity.
Defined.

(** * Further properties of the module *)

(** ** The two probes *)



(** X2. What [filevault_is_active] says about a status command that did
    not answer [true].  It calls [subprocess.check_output] once, on the
    status command, and never logs at error level.  Once the command
    has started it warns exactly when the command exits with a non-zero
    status: that FileVault appears to be disabled where the output
    contains [false], that there was a problem where the output is
    empty, and with the output itself otherwise.  A command that exits
    with status 0 without printing [true] gets [False] and no
    diagnostic at all; neither does a command that cannot be
    started. *)
Theorem filevault_is_active_diagnostics (w : World) :
  let t := trace filevault_is_active w in
  let out := isactive_output w in
  count is_process t = 1%nat ∧
  count is_filevault_probe t = 1%nat ∧
  count is_error_display t = 0%nat ∧
  (starts w active_cmd = true →
   count is_warning t = (if (isactive_status w =? 0)%Z then 0 else 1)%nat ∧
   (isactive_status w = 0 →
    t = [Display Debug1 "Checking if FileVault is enabled..." [];
         CheckOutput active_cmd]) ∧
   (isactive_status w ≠ 0 → str_in "false" out = true →
    last t = Some (Display Warning "FileVault appears to be disabled..." [])) ∧
   (isactive_status w ≠ 0 → out = "" →
    last t =
    Some (Display Warning
            "Encountered problem determining FileVault status..." [])) ∧
   (isactive_status w ≠ 0 → out ≠ "" → str_in "false" out = false →
    last t = Some (Display Warning out []))) ∧
  (starts w active_cmd = false →
   t = [Display Debug1 "Checking if FileVault is enabled..." [];
        CheckOutput active_cmd]).
Proof.
  cbn zeta. rewrite filevault_is_active_trace. cbn zeta.
  destruct (starts w active_cmd); cbn [andb];
    [|cbn; repeat split; try done; by decide_cmds].
  destruct (Z.eqb_spec (isactive_status w) 0) as [Hz|Hz]; cbn;
    (split; [by decide_cmds|]); (split; [by decide_cmds|]);
    (split; [done|]); (split; [|done]); intros _;
    repeat split; try done.
  - intros _ Hf. rewrite Hf. unfold str_truthy.
    destruct (String.eqb_spec (isactive_output w) "") as [He|]; [|done].
    rewrite He in Hf. by vm_compute in Hf.
  - by intros _ ->.
  - intros _ Hne ->. unfold str_truthy.
    by destruct (String.eqb_spec (isactive_output w) "").
Qed.

(** The status probe where FileVault is off, where the command fails
    without a word, and where it fails with a message. *)
Lemma filevault_is_active_diagnostics_witness :
  last (trace filevault_is_active (mojave_isactive (1, "false" +:+ nl)))
  = Some (Display Warning "FileVault appears to be disabled..." []) ∧
  last (trace filevault_is_active (mojave_isactive (1, "")))
  = Some (Display Warning
            "Encountered problem determining FileVault status..." []) ∧
  last (trace filevault_is_active (mojave_isactive (1, "Error: no volume")))
  = Some (Display Warning "Error: no volume" []) ∧
  trace filevault_is_active (mojave_isactive (0, "unknown"))
  = [Display Debug1 "Checking if FileVault is enabled..." [];
     CheckOutput active_cmd].
Proof.
  split; [|split; [|split]].
  - destruct (filevault_is_active_diagnostics
                (mojave_isactive (1, "false" +:+ nl)))
      as (_ & _ & _ & H & _).
    destruct H as (_ & _ & H & _); [by vm_compute|].
    apply H; by vm_compute.
  - destruct (filevault_is_active_diagnostics (mojave_isactive (1, "")))
      as (_ & _ & _ & H & _).
    destruct H as (_ & _ & _ & H & _); [by vm_compute|].
    apply H; by vm_compute.
  - destruct (filevault_is_active_diagnostics
                (mojave_isactive (1, "Error: no volume")))
      as (_ & _ & _ & H & _).
    destruct H as (_ & _ & _ & _ & H); [by vm_compute|].
    apply H; by vm_compute.
  - destruct (filevault_is_active_diagnostics
                (mojave_isactive (0, "unknown")))
      as (_ & _ & _ & H & _).
    destruct H as (_ & H & _); [by vm_compute|].
    apply H; by vm_compute.
Defined.

(** ** The credential lookup *)

(** X3. [get_auth_restart_key] returns the empty string in exactly four
    situations: the [RecoveryKeyFile] preference is not set (or falsy),
    the document at that path cannot be read as a property list, the
    document is a dictionary without [RecoveryKey], or its [RecoveryKey]
    is a string of nothing but whitespace. *)
Theorem get_auth_restart_key_empty_iff (w : World) :
  let path := pref_value w "RecoveryKeyFile" in
  outcome get_auth_restart_key w = Ret [] ↔
  truthy path = false ∨
  plists w path = None ∨
  ∃ d, plists w path = Some (VDict d) ∧
       (dict_get d "RecoveryKey" = None ∨
        ∃ s, dict_get d "RecoveryKey" = Some (VStr s) ∧
             all_space s = true).
Proof.
  cbn zeta. unfold outcome. rewrite get_auth_restart_key_run. cbn zeta.
  destruct (truthy _); cbn; [|by split; [left|]].
  destruct (plists w _) as [doc|]; [|by split; [right; left|]].
  destruct doc; cbn;
    try (split; [done | by intros [?|[?|(? & ? & _)]]]).
  destruct (dict_get d "RecoveryKey") as [v|] eqn:Hd; cbn.
  2: { split; [|done]. intros _. right. right. exists d. split; [done|].
       by left. }
  destruct v; cbn;
    try (split; [done|];
         intros [?|[?|(d' & [= <-] & [?|(s' & ? & _)])]]; congruence).
  split.
  - intros [= Hs%strip_empty]. right. right. exists d. split; [done|].
    right. by exists s.
  - intros [?|[?|(d' & [= <-] & [?|(s' & Hs' & Hsp)])]]; try congruence.
    rewrite Hd in Hs'. injection Hs' as <-. f_equal. by apply strip_empty.
Qed.

(** X4. The only exceptions that leave [get_auth_restart_key] are a
    [TypeError], exactly when the document parses but is not a
    dictionary, and an [AttributeError], exactly when the document is a
    dictionary whose [RecoveryKey] is not a string.  A [KeyError] or an
    [NSPropertyListSerializationException] never leaves it. *)
Theorem get_auth_restart_key_raises (w : World) (e : exn) :
  let path := pref_value w "RecoveryKeyFile" in
  outcome get_auth_restart_key w = Raise e ↔
  truthy path = true ∧
  ∃ doc, plists w path = Some doc ∧
    ((e = TypeError ∧ ∀ d, doc ≠ VDict d) ∨
     (e = AttributeError ∧
      ∃ d v, doc = VDict d ∧ dict_get d "RecoveryKey" = Some v ∧
             ∀ s, v ≠ VStr s)).
Proof.
  cbn zeta. unfold outcome. rewrite get_auth_restart_key_run. cbn zeta.
  destruct (truthy _); cbn; [|by split; [|intros [? _]]].
  destruct (plists w _) as [doc|]; cbn;
    [|by split; [|intros (_ & ? & ? & _)]].
  destruct doc; cbn.
  1-5: split;
    [ intros [= <-]; split; [done|]; eexists; split; [done|]; by left
    | intros (_ & doc & [= <-] & [[-> _]|(_ & d & v & ? & _)]); done ].
  destruct (dict_get d "RecoveryKey") as [v|] eqn:Hd; cbn.
  2: { split; [done|].
       intros (_ & doc & [= <-] & [[_ H]|(_ & d' & v & [= <-] & ? & _)]);
         [by destruct (H d) | congruence]. }
  destruct v; cbn.
  4: { split; [done|].
       intros (_ & doc & [= <-] & [[_ H]|(_ & d' & v & [= <-] & Hv & Hs)]);
         [by destruct (H d)|].
       rewrite Hd in Hv. injection Hv as <-. by destruct (Hs s). }
  all: split;
    [ intros [= <-]; split; [done|]; eexists; split; [done|]; right;
      split; [done|]; by eexists _, _
    | intros (_ & doc & [= <-] & [[_ H]|(-> & _)]);
      [by destruct (H d) | done] ].
Qed.

(** X5. The lookup starts no process, never calls the serializer and
    never asks for the OS version.  It reads one preference, once, and
    that is [RecoveryKeyFile]; where that is set it reads one document,
    the one at the path the preference holds; where it is not set it
    reads none.  It logs at most one warning or error. *)
Theorem get_auth_restart_key_effects (w : World) :
  let t := trace get_auth_restart_key w in
  let path := pref_value w "RecoveryKeyFile" in
  count is_process t = 0%nat ∧
  count is_serialize t = 0%nat ∧
  count is_os_query t = 0%nat ∧
  count is_any_pref_read t = 1%nat ∧
  Forall (λ e, is_any_pref_read e = true → e = Pref "RecoveryKeyFile") t ∧
  count (is_pref_read "RecoveryKeyFile") t = 1%nat ∧
  (∀ name, name ≠ "RecoveryKeyFile" → count (is_pref_read name) t = 0%nat) ∧
  count is_plist_read t = (if truthy path then 1 else 0)%nat ∧
  Forall (λ e, is_plist_read e = true → e = ReadPlist path) t ∧
  (count is_warning t + count is_error_display t ≤ 1)%nat.
Proof.
  cbn zeta.
  assert (Hlist : ∀ Q : event → Prop,
            (∀ lvl msg args, Q (Display lvl msg args)) →
            Q (Pref "RecoveryKeyFile") →
            Q (ReadPlist (pref_value w "RecoveryKeyFile")) →
            Forall Q (trace get_auth_restart_key w)).
  { intros Q Hd Hp Hr.
    unfold trace. rewrite get_auth_restart_key_run. cbn zeta.
    destruct (truthy _); cbn [fst negb];
      [|by repeat (apply Forall_cons; split; [done|])].
    destruct (plists w _) as [[]|]; cbn [fst app];
      try (repeat (apply Forall_cons; split; [done|]); done).
    destruct (dict_get d "RecoveryKey") as [[]|]; cbn [fst app];
      repeat (apply Forall_cons; split; [done|]); done. }
  repeat split;
    try (rewrite get_auth_restart_key_count by auto with silent;
         cbn; destruct (truthy _); cbn; lia).
  - by apply Hlist.
  - intros name Hne.
    rewrite get_auth_restart_key_count by auto with silent.
    cbn [is_pref_read].
    destruct (String.eqb_spec "RecoveryKeyFile" name) as [Heq|_];
      [by destruct Hne|].
    destruct (truthy _); cbn; lia.
  - by apply Hlist.
  - unfold trace. rewrite get_auth_restart_key_run. cbn zeta.
    destruct (truthy _); cbn; [|lia].
    destruct (plists w _) as [[]|]; cbn; try lia.
    destruct (dict_get d "RecoveryKey") as [[]|]; cbn; lia.
Qed.

(** A key on file that is blank: spaces, a no-break space, a line
    feed. *)
Lemma get_auth_restart_key_empty_iff_witness :
  outcome get_auth_restart_key
    (mojave_doc (key_doc [32; 32; 160; 8195; 10]%N)) = Ret [].
Proof.
  apply (get_auth_restart_key_empty_iff
           (mojave_doc (key_doc [32; 32; 160; 8195; 10]%N))).
  right. right. exists [("RecoveryKey", VStr [32; 32; 160; 8195; 10]%N)].
  split; [by vm_compute|]. right. exists [32; 32; 160; 8195; 10]%N.
  by vm_compute.
Defined.

(** A key that is a number, and a document that is an array. *)
Lemma get_auth_restart_key_raises_witness :
  outcome get_auth_restart_key
    (mojave_doc (Some (VDict [("RecoveryKey", VInt 12345)])))
  = Raise AttributeError ∧
  outcome get_auth_restart_key
    (mojave_doc (Some (VList [VStr (u "ABCD-1234")])))
  = Raise TypeError.
Proof.
  split.
  - apply (get_auth_restart_key_raises
             (mojave_doc (Some (VDict [("RecoveryKey", VInt 12345)])))).
    split; [by vm_compute|]. eexists. split; [by vm_compute|]. right.
    split; [done|]. by eexists _, _.
  - apply (get_auth_restart_key_raises
             (mojave_doc (Some (VList [VStr (u "ABCD-1234")])))).
    split; [by vm_compute|]. eexists. split; [by vm_compute|]. by left.
Defined.

(** The lookup on a machine with no preference set. *)
Lemma get_auth_restart_key_effects_witness :
  count (is_pref_read "PerformAuthRestarts")
    (trace get_auth_restart_key (mojave_prefs ∅)) = 0%nat.
Proof.
  destruct (get_auth_restart_key_effects (mojave_prefs ∅))
    as (_ & _ & _ & _ & _ & _ & H & _).
  apply H. done.
Defined.

(** ** The gate and the flow together *)

Lemma get_auth_restart_key_nonempty_pref (w : World) (k : text) :
  outcome get_auth_restart_key w = Ret k → k ≠ [] →
  truthy (pref_value w "RecoveryKeyFile") = true.
Proof.
  unfold outcome. rewrite get_auth_restart_key_run. cbn zeta.
  destruct (truthy _); cbn; [done|]. by intros [= <-].
Qed.

(** The exceptions of the lookup. *)
Lemma get_auth_restart_key_exn (w : World) (e : exn) :
  outcome get_auth_restart_key w = Raise e →
  e = TypeError ∨ e = AttributeError.
Proof.
  unfold outcome. rewrite get_auth_restart_key_run. cbn zeta.
  destruct (truthy _); cbn; [|done].
  destruct (plists w _) as [[]|]; cbn; try done;
    try (intros [= <-]; by left).
  destruct (dict_get d "RecoveryKey") as [[]|]; cbn; try done;
    intros [= <-]; by right.
Qed.

(** X6. The flow and the gate test different things in a different order,
    yet they agree on the helper: [do_authorized_or_normal_restart]
    spawns [fdesetup authrestart], once, exactly in the worlds where
    [can_attempt_auth_restart] returns [True], and never more than
    once. *)
Theorem helper_spawned_iff_gate (w : World) :
  let t := trace do_authorized_or_normal_restart w in
  (helper_invocations t = 1%nat ↔
   outcome can_attempt_auth_restart w = Ret (VBool true)) ∧
  (helper_invocations t = 0%nat ↔
   outcome can_attempt_auth_restart w ≠ Ret (VBool true)).
Proof.
  cbn zeta.
  destruct (do_authorized_or_normal_restart_counts w) as (_ & -> & _).
  unfold outcome at 1 2. rewrite can_attempt_auth_restart_run. cbn zeta.
  unfold restricted_eligible, configured, helper_reached, once_started.
  assert (Hfin : ∀ r : result value, r ≠ Ret (VBool true) →
            (0%nat = 1%nat ↔ r = Ret (VBool true)) ∧
            (0%nat = 0%nat ↔ r ≠ Ret (VBool true))).
  { intros r Hr. repeat split; intros; done. }
  destruct (tuple_ge (os_version w) [10; 8]);
    rewrite ?andb_false_r; cbn [andb snd]; [|by apply Hfin].
  destruct (truthy (pref_value w "PerformAuthRestarts")) eqn:Hp;
    cbn [andb snd].
  2: { apply Hfin. intros [= H]. rewrite H in Hp. done. }
  destruct (fv_active w); rewrite ?andb_false_r; cbn [andb snd];
    [|apply Hfin; by destruct (starts w active_cmd)].
  destruct (capable w); rewrite ?andb_false_r; cbn [andb snd];
    [|apply Hfin; by destruct (starts w support_cmd)].
  destruct (outcome get_auth_restart_key w) as [k|e] eqn:Hk;
    rewrite ?andb_false_r; cbn [andb snd]; [|by apply Hfin].
  destruct k as [|c k]; cbn [text_truthy];
    rewrite ?andb_false_r; [by apply Hfin|].
  rewrite (get_auth_restart_key_nonempty_pref w (c :: k) Hk) by done. cbn.
  repeat split; intros; done.
Qed.

(** X7. The executor on its own: it always runs the capability probe, once,
    and never the status probe or the plain restart; it spawns the
    helper at most once, serializes the credential exactly as often,
    and has spawned it whenever it returns [True].  An exception leaves
    it exactly where the capability probe raises, where the probe said
    yes and the lookup raises, or where the lookup gave a credential and
    the helper cannot be started; it is the exception of that step, an
    [OSError] for the probe or the helper. *)
Theorem perform_auth_restart_effects (w : World) :
  let t := trace perform_auth_restart w in
  count is_capability_probe t = 1%nat ∧
  count is_filevault_probe t = 0%nat ∧
  plain_restarts t = 0%nat ∧
  (helper_invocations t ≤ 1)%nat ∧
  count is_serialize t = helper_invocations t ∧
  (outcome perform_auth_restart w = Ret true → helper_invocations t = 1%nat) ∧
  (∀ e, outcome perform_auth_restart w = Raise e ↔
        outcome supports_auth_restart w = Raise e ∨
        outcome supports_auth_restart w = Ret true ∧
        (outcome get_auth_restart_key w = Raise e ∨
         ∃ k, outcome get_auth_restart_key w = Ret k ∧ k ≠ [] ∧
              starts w authrestart_cmd = false ∧ e = OSError)) ∧
  (∀ e, outcome perform_auth_restart w = Raise e →
        e = OSError ∨ e = TypeError ∨ e = AttributeError).
Proof.
  cbn zeta. unfold plain_restarts, helper_invocations.
  pose proof (get_auth_restart_key_exn w) as Hkind.
  pose proof (capable_starts w) as Hcs.
  rewrite supports_auth_restart_outcome.
  assert (Hser : silent is_serialize) by done.
  pose proof (perform_auth_restart_run w) as Hrun. cbn zeta in Hrun.
  rewrite (run_pair perform_auth_restart) in Hrun. revert Hrun.
  generalize (trace perform_auth_restart w) (outcome perform_auth_restart w).
  intros t o Hrun. unfold once_started in *.
  destruct (capable w);
    [rewrite (Hcs eq_refl) in *;
     destruct (outcome get_auth_restart_key w) as [k|e];
     [destruct k as [|c k]; cbn [text_truthy] in Hrun;
      [|destruct (starts w authrestart_cmd); [destruct (classify _ _)|]]|]
    |destruct (starts w support_cmd)];
    apply pair_equal_spec in Hrun as [-> ->].
  all: repeat split; intros;
    try (count_events;
         try destruct (truthy (pref_value w "RecoveryKeyFile")); cbn; lia);
    try done; try congruence.
  all: try match goal with
    | H : _ ∨ _ |- _ = Raise _ =>
        destruct H as [H|[Hs [H|(k0 & Hk0 & Hne & Hst & ->)]]]; by simplify_eq
    end.
  all: simplify_eq; first
    [ by left
    | by right; split; [done|]; left
    | right; split; [done|]; right; eexists; by repeat split
    | match goal with
      | H : ∀ e, Raise ?x = Raise e → _ |- _ =>
          destruct (H x eq_refl) as [->| ->]; by auto
      end ].
Qed.

(** The executor where the helper succeeds, and where it cannot be
    started. *)
Lemma perform_auth_restart_effects_witness :
  helper_invocations (trace perform_auth_restart (mojave "")) = 1%nat ∧
  outcome perform_auth_restart
    (failing_command authrestart_cmd (mojave "")) = Raise OSError.
Proof.
  destruct (perform_auth_restart_effects (mojave ""))
    as (_ & _ & _ & _ & _ & H1 & _).
  destruct (perform_auth_restart_effects
              (failing_command authrestart_cmd (mojave "")))
    as (_ & _ & _ & _ & _ & _ & H2 & _).
  split.
  - apply H1. by vm_compute.
  - apply H2. right. split; [by vm_compute|]. right.
    exists (u "ABCD-1234"). split; [by vm_compute|].
    split; [done|]. split; [by vm_compute | done].
Defined.

(** Where an exception leaves the executor. *)
Lemma perform_auth_restart_raises (w : World) (e : exn) :
  outcome perform_auth_restart w = Raise e ↔
  starts w support_cmd = false ∧ e = OSError ∨
  capable w = true ∧
  (outcome get_auth_restart_key w = Raise e ∨
   helper_reached w = true ∧ starts w authrestart_cmd = false ∧ e = OSError).
Proof.
  pose proof (capable_starts w) as Hcs.
  unfold outcome at 1. rewrite perform_auth_restart_run. cbn zeta.
  unfold helper_reached, once_started.
  destruct (capable w); cbn [andb].
  - rewrite (Hcs eq_refl).
    destruct (outcome get_auth_restart_key w) as [k|e'].
    + destruct (text_truthy k); [destruct (starts w authrestart_cmd)|]; cbn.
      * split; [done|]. by intros [[? _]|[_ [?|(_ & ? & _)]]].
      * split; [intros [= <-]; right; by auto|].
        by intros [[? _]|[_ [?|(_ & _ & ->)]]].
      * split; [done|]. by intros [[? _]|[_ [?|(? & _)]]].
    + cbn. split; [intros [= <-]; right; by auto|].
      intros [[? _]|[_ [?|(? & _)]]]; [done|congruence|done].
  - destruct (starts w support_cmd); cbn.
    + split; [done|]. by intros [[? _]|[? _]].
    + split; [intros [= <-]; by left|]. by intros [[_ ->]|[? _]].
Qed.

(** X8. Where the flow does not return.  An exception leaves it exactly
    where its first three conditions hold and the status probe raises,
    where the executor is attempted and raises, or where the plain
    restart is run and cannot be started; it is that step's exception,
    an [OSError], a [TypeError] or an [AttributeError].  The last two
    are the credential lookup's: they leave the flow exactly where the
    restricted check held, the capability probe said yes and the lookup
    raised, and then the flow has started neither the helper nor the
    plain restart.  Where all four commands can be started and the
    lookup does not raise, the flow returns. *)
Theorem do_authorized_or_normal_restart_outcome (w : World) :
  let t := trace do_authorized_or_normal_restart w in
  (∀ e, outcome do_authorized_or_normal_restart w = Raise e ↔
        configured w = true ∧ outcome filevault_is_active w = Raise e ∨
        restricted_eligible w = true ∧
        outcome perform_auth_restart w = Raise e ∨
        plain_restarts t = 1%nat ∧ starts w shutdown_cmd = false ∧
        e = OSError) ∧
  (∀ e, outcome do_authorized_or_normal_restart w = Raise e →
        e = OSError ∨ e = TypeError ∨ e = AttributeError) ∧
  (∀ e, e ≠ OSError →
        (outcome do_authorized_or_normal_restart w = Raise e ↔
         restricted_eligible w = true ∧
         outcome supports_auth_restart w = Ret true ∧
         outcome get_auth_restart_key w = Raise e)) ∧
  (∀ e, e ≠ OSError →
        outcome do_authorized_or_normal_restart w = Raise e →
        helper_invocations t = 0%nat ∧ plain_restarts t = 0%nat) ∧
  (starts w active_cmd = true → starts w support_cmd = true →
   starts w authrestart_cmd = true → starts w shutdown_cmd = true →
   (∀ e, outcome get_auth_restart_key w ≠ Raise e) →
   outcome do_authorized_or_normal_restart w = Ret tt).
Proof.
  cbn zeta.
  destruct (perform_auth_restart_counts w) as (_ & Hpp & Hph & _).
  pose proof (deciding_trace_count is_helper_spawn w) as Hdh.
  pose proof (deciding_trace_count is_plain_restart w) as Hdp.
  pose proof (perform_auth_restart_raises w) as Hexe.
  pose proof (get_auth_restart_key_exn w) as Hkind.
  pose proof (fv_active_starts w) as Hfs.
  pose proof (capable_starts w) as Hcs.
  assert (Hreach : ∀ e, outcome get_auth_restart_key w = Raise e →
                        helper_reached w = false).
  { intros e He. unfold helper_reached. rewrite He. apply andb_false_r. }
  assert (Hplain1 : ∀ t1, count is_plain_restart t1 = 0%nat →
            count is_plain_restart (t1 ++ fallback_trace) = 1%nat).
  { intros t1 H1. unfold fallback_trace. rewrite count_app, H1. cbn.
    by decide_cmds. }
  assert (Hattempt : count is_plain_restart
            (deciding_trace w ++
             Display Debug1 "Configured to perform AuthRestarts..." []
             :: trace perform_auth_restart w) = 0%nat).
  { rewrite count_app. cbn [count]. rewrite Hdp by done.
    unfold plain_restarts in Hpp. by rewrite Hpp. }
  assert (Hfailed : count is_plain_restart
            ((deciding_trace w ++
              Display Debug1 "Configured to perform AuthRestarts..." []
              :: trace perform_auth_restart w) ++
             Display Warning
               "Authorized Restart failed. Performing normal restart..." []
             :: fallback_trace) = 1%nat).
  { rewrite (cons_middle _ _ fallback_trace), app_assoc. apply Hplain1.
    by rewrite count_app, Hattempt. }
  rewrite filevault_is_active_outcome, supports_auth_restart_outcome.
  unfold plain_restarts, helper_invocations in *.
  pose proof (do_authorized_or_normal_restart_run w) as Hrun.
  cbn zeta in Hrun.
  rewrite (run_pair do_authorized_or_normal_restart) in Hrun. revert Hrun.
  generalize (trace do_authorized_or_normal_restart w)
    (outcome do_authorized_or_normal_restart w).
  intros t o Hrun.
  unfold restricted_eligible, once_started in *.
  destruct (configured w); cbn [andb] in *.
  2: { apply pair_equal_spec in Hrun as [-> ->].
       rewrite (Hplain1 _ (Hdp ltac:(done) ltac:(done) ltac:(done)
                             ltac:(done))).
       destruct (starts w shutdown_cmd);
         (split; [|split; [|split; [|split]]]); intros; try done.
       - split; [done|]. by intros [[? _]|[[? _]|(_ & ? & _)]].
       - split; [done | by intros [? _]].
       - split; [intros [= <-]; by auto|].
         by intros [[? _]|[[? _]|(_ & _ & ->)]].
       - simplify_eq. by left.
       - split; [by intros [= <-] | by intros [? _]].
       - by simplify_eq. }
  destruct (fv_active w); cbn [andb negb] in *.
  2: { destruct (starts w active_cmd); cbn [negb] in *;
         apply pair_equal_spec in Hrun as [-> ->].
       - rewrite (Hplain1 _ (Hdp ltac:(done) ltac:(done) ltac:(done)
                               ltac:(done))).
         destruct (starts w shutdown_cmd);
           (split; [|split; [|split; [|split]]]); intros; try done.
         + split; [done|]. by intros [[_ ?]|[[? _]|(_ & ? & _)]].
         + split; [done | by intros [? _]].
         + split; [intros [= <-]; by auto|].
           by intros [[_ ?]|[[? _]|(_ & _ & ->)]].
         + simplify_eq. by left.
         + split; [by intros [= <-] | by intros [? _]].
         + by simplify_eq.
       - rewrite (Hdp ltac:(done) ltac:(done) ltac:(done) ltac:(done)).
         (split; [|split; [|split; [|split]]]); intros; try done.
         + split; [intros [= <-]; by left|].
           by intros [[_ [= <-]]|[[? _]|(? & _)]].
         + simplify_eq. by left.
         + split; [by intros [= <-] | by intros [? _]].
         + by simplify_eq. }
  rewrite (Hfs eq_refl) in *.
  destruct (outcome perform_auth_restart w) as [[]|e'] eqn:Ho;
    apply pair_equal_spec in Hrun as [-> ->].
  - rewrite Hattempt.
    (split; [|split; [|split; [|split]]]); intros; try done.
    + split; [done|]. by intros [[_ ?]|[[_ ?]|(? & _)]].
    + split; [done|]. intros (_ & Hs & Hk).
      assert (Ret true = Raise e) as [=].
      apply Hexe. right. split; [|by left].
      destruct (capable w); [done|]. by destruct (starts w support_cmd).
  - rewrite Hfailed.
    (split; [|split; [|split; [|split]]]); intros.
    + destruct (starts w shutdown_cmd).
      * split; [done|]. by intros [[_ ?]|[[_ ?]|(_ & ? & _)]].
      * split; [intros [= <-]; by auto|].
        by intros [[_ ?]|[[_ ?]|(_ & _ & ->)]].
    + destruct (starts w shutdown_cmd); simplify_eq. by left.
    + split.
      * destruct (starts w shutdown_cmd); by intros [= <-].
      * intros (_ & Hs & Hk).
        assert (Ret false = Raise e) as [=].
        apply Hexe. right. split; [|by left].
        destruct (capable w); [done|]. by destruct (starts w support_cmd).
    + destruct (starts w shutdown_cmd); by simplify_eq.
    + match goal with
      | Hsd : starts w shutdown_cmd = true |- _ => by rewrite Hsd
      end.
  - rewrite Hattempt.
    destruct (proj1 (Hexe e') eq_refl) as [[Hs ->]|[Hc Hk]].
    + rewrite Hs.
      (split; [|split; [|split; [|split]]]); intros; try done.
      * split; [intros [= <-]; by auto|].
        by intros [[_ ?]|[[_ [= <-]]|(? & _)]].
      * simplify_eq. by left.
      * split; [by intros [= <-]|]. intros (_ & Hc & _).
        by destruct (capable w).
      * by simplify_eq.
    + pose proof (Hcs Hc) as Hst. rewrite Hc, Hst in *.
      (split; [|split; [|split; [|split]]]); intros.
      * split; [intros [= <-]; by auto|].
        by intros [[_ ?]|[[_ [= <-]]|(? & _)]].
      * simplify_eq. destruct Hk as [Hk|(_ & _ & ->)]; [|by left].
        right. by apply Hkind.
      * split.
        -- intros [= <-]. split; [done|]. split; [done|].
           by destruct Hk as [Hk|(_ & _ & ->)].
        -- intros (_ & _ & Hk'). f_equal.
           destruct Hk as [Hk|(Hr & _)]; [congruence|].
           by rewrite (Hreach e Hk') in Hr.
      * simplify_eq. destruct Hk as [Hk|(_ & _ & ->)]; [|done].
        split; [|done]. rewrite count_app. cbn [count].
        rewrite Hdh by done. unfold helper_invocations in Hph.
        by rewrite Hph, (Hreach e Hk).
      * destruct Hk as [Hk|(_ & Hno & _)]; [|congruence].
        match goal with
        | Hnr : ∀ e, outcome get_auth_restart_key w ≠ Raise e |- _ =>
            by destruct (Hnr e')
        end.
Qed.

(** The flow on an eligible machine whose recovery key is a number, and
    on a machine where [shutdown] cannot be started. *)
Lemma do_authorized_or_normal_restart_outcome_witness :
  outcome do_authorized_or_normal_restart
    (mojave_doc (Some (VDict [("RecoveryKey", VInt 12345)])))
  = Raise AttributeError ∧
  outcome do_authorized_or_normal_restart
    (failing_command shutdown_cmd (mojave_prefs ∅))
  = Raise OSError ∧
  outcome do_authorized_or_normal_restart (mojave "") = Ret tt.
Proof.
  destruct (do_authorized_or_normal_restart_outcome
              (mojave_doc (Some (VDict [("RecoveryKey", VInt 12345)]))))
    as (_ & _ & H1 & _).
  destruct (do_authorized_or_normal_restart_outcome
              (failing_command shutdown_cmd (mojave_prefs ∅)))
    as (H2 & _).
  destruct (do_authorized_or_normal_restart_outcome (mojave ""))
    as (_ & _ & _ & _ & H3).
  split; [|split].
  - apply H1; [done|]. by vm_compute.
  - apply H2. right. right. by vm_compute.
  - apply H3; done.
Defined.

(** X9. Where authorized restarts are not configured (the
    [PerformAuthRestarts] preference is off, or [RecoveryKeyFile] is not
    set, or the OS version is below (10, 8)) the flow never runs
    [fdesetup] and reads no document: it announces the restart, asks for
    the OS version, reads the preferences and runs the plain restart,
    the only process it starts.  It reads [RecoveryKeyFile] only where
    [PerformAuthRestarts] is on.  It returns once [shutdown] has
    started; an [OSError] leaves it where [shutdown] cannot be
    started. *)
Theorem restart_not_configured (w : World) :
  truthy (pref_value w "PerformAuthRestarts")
  && truthy (pref_value w "RecoveryKeyFile")
  && tuple_ge (os_version w) [10; 8] = false →
  do_authorized_or_normal_restart w =
  ([Display Info "Restarting now." []; GetOsVersion;
    Pref "PerformAuthRestarts"] ++
   (if truthy (pref_value w "PerformAuthRestarts")
    then [Pref "RecoveryKeyFile"] else []) ++
   [Display Debug1 "Performing a regular restart..." [];
    Call shutdown_cmd],
   if starts w shutdown_cmd then Ret tt else Raise OSError) ∧
  count is_process (trace do_authorized_or_normal_restart w) = 1%nat ∧
  count is_plist_read (trace do_authorized_or_normal_restart w) = 0%nat.
Proof.
  intros Hc. fold (configured w) in Hc.
  assert (Hrun : do_authorized_or_normal_restart w =
                 (deciding_trace w ++ fallback_trace,
                  once_started w shutdown_cmd tt)).
  { rewrite do_authorized_or_normal_restart_run. unfold restricted_eligible.
    by rewrite Hc. }
  unfold trace. rewrite Hrun.
  unfold deciding_trace, fallback_trace, once_started.
  rewrite Hc. cbn [fst]. split; [by rewrite app_nil_r, <- !app_assoc|].
  by destruct (truthy (pref_value w "PerformAuthRestarts")).
Qed.

(** The flow with no preference set, and on Mac OS X 10.7.5. *)
Lemma restart_not_configured_witness :
  trace do_authorized_or_normal_restart (mojave_prefs ∅)
  = [Display Info "Restarting now." []; GetOsVersion;
     Pref "PerformAuthRestarts";
     Display Debug1 "Performing a regular restart..." [];
     Call shutdown_cmd] ∧
  count is_process
    (trace do_authorized_or_normal_restart (on_version [10; 7; 5] ""))
  = 1%nat.
Proof.
  destruct (restart_not_configured (mojave_prefs ∅)) as (H1 & _);
    [by vm_compute|].
  destruct (restart_not_configured (on_version [10; 7; 5] ""))
    as (_ & H2 & _); [by vm_compute|].
  split; [|exact H2]. unfold trace. rewrite H1. by vm_compute.
Defined.

(** X10. The plain restart, where the flow runs it, is the last thing the
    flow does, and whatever the flow did with the helper came before
    it.  Where the flow returns without the plain restart, the last
    things it did are to spawn the helper, to feed it the credential
    and to ask for the OS version, and the helper's stderr read as a
    success. *)
Theorem plain_restart_is_last (w : World) :
  let t := trace do_authorized_or_normal_restart w in
  (plain_restarts t = 1%nat →
   ∃ t', t = t' ++ [Call shutdown_cmd] ∧
         plain_restarts t' = 0%nat ∧
         helper_invocations t' = helper_invocations t) ∧
  (plain_restarts t = 0%nat →
   outcome do_authorized_or_normal_restart w = Ret tt →
   ∃ t' k,
     outcome get_auth_restart_key w = Ret k ∧ k ≠ [] ∧
     t = t' ++ [Popen authrestart_cmd;
                Communicate authrestart_cmd (helper_input w k);
                GetOsVersion] ∧
     classify (os_version w) (helper_stderr w k) = true).
Proof.
  cbn zeta.
  destruct (perform_auth_restart_counts w) as (_ & Hpp & Hph & _).
  pose proof (deciding_trace_count is_helper_spawn w) as Hdh.
  pose proof (deciding_trace_count is_plain_restart w) as Hdp.
  pose proof (perform_auth_restart_run w) as Hexe. cbn zeta in Hexe.
  rewrite (run_pair perform_auth_restart) in Hexe.
  unfold plain_restarts, helper_invocations in *.
  pose proof (do_authorized_or_normal_restart_run w) as Hrun.
  cbn zeta in Hrun.
  rewrite (run_pair do_authorized_or_normal_restart) in Hrun. revert Hrun.
  generalize (trace do_authorized_or_normal_restart w)
    (outcome do_authorized_or_normal_restart w).
  intros t o Hrun.
  destruct (restricted_eligible w).
  2: { destruct (configured w && negb (starts w active_cmd));
         apply pair_equal_spec in Hrun as [-> ->].
       { split; [|done]. by rewrite Hdp. }
       unfold fallback_trace. split.
       - intros _.
         exists (deciding_trace w ++
                 [Display Debug1 "Performing a regular restart..." []]).
         split; [by rewrite <- app_assoc|].
         rewrite !count_app. cbn [count]. rewrite Hdh, Hdp by done. done.
       - rewrite count_app. cbn [count]. rewrite Hdp by done.
         decide_cmds. done. }
  destruct (outcome perform_auth_restart w) as [[]|e'] eqn:Ho.
  - apply pair_equal_spec in Hrun as [-> ->]. split.
    + rewrite count_app. cbn [count]. rewrite Hpp, Hdp by done. done.
    + intros _ _. revert Hexe. unfold once_started.
      destruct (capable w);
        [|destruct (starts w support_cmd); by intros [= _ ?]].
      destruct (outcome get_auth_restart_key w) as [k|e]; [|by intros [= _ ?]].
      destruct k as [|c k]; cbn [text_truthy]; [by intros [= _ ?]|].
      destruct (starts w authrestart_cmd); [|by intros [= _ ?]].
      destruct (classify _ _) eqn:Hc; [|by intros [= _ ?]].
      intros [Ht _]%pair_equal_spec.
      exists (deciding_trace w ++
              Display Debug1 "Configured to perform AuthRestarts..." []
              :: (executor_entry :: trace supports_auth_restart w ++
                  executor_supported :: trace get_auth_restart_key w) ++
              [WritePlistToString (password_plist (c :: k));
               Display Info "Attempting an Authorized Restart now..." []]),
        (c :: k).
      split; [done|]. split; [done|]. split; [|done].
      rewrite Ht. unfold executor_entry, executor_supported.
      generalize (deciding_trace w) (trace supports_auth_restart w)
        (trace get_auth_restart_key w) (helper_input w (c :: k)).
      intros d ts tk i. clear.
      repeat (progress (rewrite <- ?app_assoc; cbn [app])). reflexivity.
  - apply pair_equal_spec in Hrun as [-> ->]. unfold fallback_trace. split.
    + intros _.
      exists ((deciding_trace w ++
               Display Debug1 "Configured to perform AuthRestarts..." []
               :: trace perform_auth_restart w) ++
              [Display Warning
                 "Authorized Restart failed. Performing normal restart..." [];
               Display Debug1 "Performing a regular restart..." []]).
      split; [by rewrite <- !app_assoc|].
      repeat (progress (rewrite ?count_app; cbn [count])).
      rewrite ?Hpp, ?Hph, ?Hdp, ?Hdh by done. cbn. decide_cmds.
      destruct (helper_reached w); cbn; split; lia.
    + repeat (progress (rewrite ?count_app; cbn [count])).
      rewrite ?Hpp, ?Hdp by done. cbn. decide_cmds. cbn. lia.
  - apply pair_equal_spec in Hrun as [-> ->]. split; [|done].
    rewrite count_app. cbn [count]. rewrite Hpp, Hdp by done. done.
Qed.

(** The flow where the helper fails and where it succeeds. *)
Lemma plain_restart_is_last_witness :
  last (trace do_authorized_or_normal_restart (mojave "Error: bad key"))
  = Some (Call shutdown_cmd) ∧
  last (trace do_authorized_or_normal_restart (mojave ""))
  = Some GetOsVersion.
Proof.
  destruct (plain_restart_is_last (mojave "Error: bad key")) as (H1 & _).
  destruct (plain_restart_is_last (mojave "")) as (_ & H2).
  destruct H1 as (t1 & -> & _); [by vm_compute|].
  destruct H2 as (t2 & k & _ & _ & -> & _); [by vm_compute..|].
  split.
  - apply last_snoc.
  - by rewrite last_app.
Defined.

(** ** What the gate returns, and OS versions *)

(** X11. [can_attempt_auth_restart] does not always return a boolean.  On an
    OS version of at least (10, 8) with a [PerformAuthRestarts]
    preference that is falsy it returns that preference's value as it
    is ([None] where the preference is not set); in every other case in
    which it returns, it returns [True] or [False]. *)
Theorem can_attempt_auth_restart_value (w : World) :
  let p := pref_value w "PerformAuthRestarts" in
  (tuple_ge (os_version w) [10; 8] = true → truthy p = false →
   outcome can_attempt_auth_restart w = Ret p) ∧
  (∀ v, outcome can_attempt_auth_restart w = Ret v →
        (∃ b, v = VBool b) ∨
        (v = p ∧ truthy p = false ∧ tuple_ge (os_version w) [10; 8] = true)).
Proof.
  cbn zeta. unfold outcome at 1 2. rewrite can_attempt_auth_restart_run.
  cbn zeta. unfold once_started. split.
  - by intros -> ->.
  - intros v.
    destruct (tuple_ge (os_version w) [10; 8]);
      [|intros [= <-]; left; by eexists].
    destruct (truthy (pref_value w "PerformAuthRestarts"));
      [|intros [= <-]; by right].
    destruct (fv_active w);
      [|destruct (starts w active_cmd); [|done];
        intros [= <-]; left; by eexists].
    destruct (capable w);
      [|destruct (starts w support_cmd); [|done];
        intros [= <-]; left; by eexists].
    cbn. destruct (outcome get_auth_restart_key w); [|done].
    intros [= <-]. left. by eexists.
Qed.

(** The gate on a machine with no preference set: [None], not [False]. *)
Lemma can_attempt_auth_restart_value_witness :
  outcome can_attempt_auth_restart (mojave_prefs ∅) = Ret VNone.
Proof.
  destruct (can_attempt_auth_restart_value (mojave_prefs ∅)) as (H & _).
  apply H; by vm_compute.
Defined.

Lemma can_attempt_auth_restart_version (ver : list Z) (w : World) :
  outcome can_attempt_auth_restart (with_os_version ver w) =
  if tuple_ge ver [10; 8] then
    if truthy (pref_value w "PerformAuthRestarts") then
      if fv_active w then
        if capable w then
          match outcome get_auth_restart_key w with
          | Ret k => Ret (VBool (text_truthy k))
          | Raise e => Raise e
          end
        else once_started w support_cmd (VBool false)
      else once_started w active_cmd (VBool false)
    else Ret (pref_value w "PerformAuthRestarts")
  else Ret (VBool false).
Proof.
  unfold outcome at 1. rewrite can_attempt_auth_restart_run. cbn zeta.
  change (os_version (with_os_version ver w)) with ver.
  change (pref_value (with_os_version ver w) "PerformAuthRestarts")
    with (pref_value w "PerformAuthRestarts").
  change (fv_active (with_os_version ver w)) with (fv_active w).
  change (capable (with_os_version ver w)) with (capable w).
  unfold outcome. rewrite get_auth_restart_key_version.
  by repeat case_match.
Qed.

(** X12. Eligibility survives an OS upgrade.  Other things equal, where the
    gate returns [True] on an OS version it returns [True] on every
    later one, and where the executor reads the helper's stderr as a
    success on an OS version it does so on every later one. *)
Theorem os_upgrade_keeps_eligibility (w : World) (ver ver' : list Z) :
  tuple_ge ver' ver = true →
  (outcome can_attempt_auth_restart (with_os_version ver w)
   = Ret (VBool true) →
   outcome can_attempt_auth_restart (with_os_version ver' w)
   = Ret (VBool true)) ∧
  (outcome perform_auth_restart (with_os_version ver w) = Ret true →
   outcome perform_auth_restart (with_os_version ver' w) = Ret true).
Proof.
  intros Hge. split.
  - rewrite !can_attempt_auth_restart_version.
    destruct (tuple_ge ver [10; 8]) eqn:Hv; [|done].
    by rewrite (tuple_ge_trans ver' ver [10; 8] Hge Hv).
  - unfold outcome. rewrite !perform_auth_restart_run. cbn zeta.
    change (capable (with_os_version ver w)) with (capable w).
    change (capable (with_os_version ver' w)) with (capable w).
    change (os_version (with_os_version ver w)) with ver.
    change (os_version (with_os_version ver' w)) with ver'.
    change (starts (with_os_version ver w)) with (starts w).
    change (starts (with_os_version ver' w)) with (starts w).
    unfold outcome. rewrite !get_auth_restart_key_version.
    destruct (capable w); [|done].
    destruct (get_auth_restart_key w) as [tk [k|e]]; cbn [snd]; [|done].
    destruct (text_truthy k); cbn [snd]; [|done].
    destruct (starts w authrestart_cmd); cbn [snd]; [|done].
    change (helper_stderr (with_os_version ver w) k)
      with (helper_stderr w k).
    change (helper_stderr (with_os_version ver' w) k)
      with (helper_stderr w k).
    unfold classify.
    destruct (tuple_ge ver [10; 12]) eqn:Hv.
    + by rewrite (tuple_ge_trans ver' ver [10; 12] Hge Hv).
    + cbn [andb]. destruct (str_truthy (helper_stderr w k)); [done|].
      intros _. by destruct (tuple_ge ver' [10; 12] && _).
Qed.

(** An upgrade from 10.11 to 10.13, and one from 10.9 to 10.14. *)
Lemma os_upgrade_keeps_eligibility_witness :
  outcome can_attempt_auth_restart
    (with_os_version [10; 13; 0] (mojave "System is being restarted."))
  = Ret (VBool true) ∧
  outcome perform_auth_restart (with_os_version [10; 14; 0] (mojave ""))
  = Ret true.
Proof.
  destruct (os_upgrade_keeps_eligibility
              (mojave "System is being restarted.") [10; 11; 0] [10; 13; 0])
    as (H1 & _); [by vm_compute|].
  destruct (os_upgrade_keeps_eligibility (mojave "") [10; 9; 5] [10; 14; 0])
    as (_ & H2); [by vm_compute|].
  split; [apply H1 | apply H2]; by vm_compute.
Defined.

(** X13. The gate only looks.  [can_attempt_auth_restart] never spawns the
    helper, never runs the plain restart and never calls the
    serializer; the only processes it starts are the two probes, each
    at most once and the capability probe only after the status probe.
    An exception leaves it exactly where its first two conditions hold
    and the status probe raises, or the status probe says yes and the
    capability probe raises, or both say yes and the lookup raises; it
    is that step's exception. *)
Theorem can_attempt_auth_restart_only_looks (w : World) :
  let t := trace can_attempt_auth_restart w in
  helper_invocations t = 0%nat ∧
  plain_restarts t = 0%nat ∧
  count is_serialize t = 0%nat ∧
  count is_process t
  = (count is_filevault_probe t + count is_capability_probe t)%nat ∧
  (count is_capability_probe t ≤ count is_filevault_probe t ≤ 1)%nat ∧
  (∀ e, outcome can_attempt_auth_restart w = Raise e ↔
        tuple_ge (os_version w) [10; 8] = true ∧
        truthy (pref_value w "PerformAuthRestarts") = true ∧
        (outcome filevault_is_active w = Raise e ∨
         outcome filevault_is_active w = Ret true ∧
         (outcome supports_auth_restart w = Raise e ∨
          outcome supports_auth_restart w = Ret true ∧
          outcome get_auth_restart_key w = Raise e))) ∧
  (∀ e, outcome can_attempt_auth_restart w = Raise e →
        e = OSError ∨ e = TypeError ∨ e = AttributeError).
Proof.
  cbn zeta. unfold helper_invocations, plain_restarts.
  pose proof (get_auth_restart_key_exn w) as Hkind.
  pose proof (fv_active_starts w) as Hfs.
  pose proof (capable_starts w) as Hcs.
  rewrite filevault_is_active_outcome, supports_auth_restart_outcome.
  assert (Hser : silent is_serialize) by done.
  pose proof (can_attempt_auth_restart_run w) as Hrun. cbn zeta in Hrun.
  rewrite (run_pair can_attempt_auth_restart) in Hrun. revert Hrun.
  generalize (trace can_attempt_auth_restart w)
    (outcome can_attempt_auth_restart w).
  intros t o Hrun. unfold once_started in *.
  destruct (tuple_ge (os_version w) [10; 8]);
    [destruct (truthy (pref_value w "PerformAuthRestarts"));
     [destruct (fv_active w);
      [rewrite (Hfs eq_refl) in *;
       destruct (capable w);
       [rewrite (Hcs eq_refl) in *;
        destruct (outcome get_auth_restart_key w) as [k|e']
       |destruct (starts w support_cmd)]
      |destruct (starts w active_cmd)]|]|];
    apply pair_equal_spec in Hrun as [-> ->].
  all: repeat split; intros;
    try (count_events;
         try destruct (truthy (pref_value w "RecoveryKeyFile")); cbn; lia);
    try done; try congruence.
  all: try match goal with
    | H : _ ∧ _ ∧ _ |- _ = Raise _ =>
        destruct H as (_ & _ & [H|[Hf [H|[Hs H]]]]); by simplify_eq
    end.
  all: simplify_eq; first
    [ by left
    | by right; split; [done|]; left
    | by right; split; [done|]; right
    | match goal with
      | H : ∀ e, Raise ?x = Raise e → _ |- _ =>
          destruct (H x eq_refl) as [->| ->]; by auto
      end ].
Qed.

(** The gate on a machine without [fdesetup], and on one whose recovery
    key is a number. *)
Lemma can_attempt_auth_restart_only_looks_witness :
  outcome can_attempt_auth_restart
    (missing_program "/usr/bin/fdesetup" (mojave "")) = Raise OSError ∧
  outcome can_attempt_auth_restart
    (mojave_doc (Some (VDict [("RecoveryKey", VInt 12345)])))
  = Raise AttributeError.
Proof.
  destruct (can_attempt_auth_restart_only_looks
              (missing_program "/usr/bin/fdesetup" (mojave "")))
    as (_ & _ & _ & _ & _ & H1 & _).
  destruct (can_attempt_auth_restart_only_looks
              (mojave_doc (Some (VDict [("RecoveryKey", VInt 12345)]))))
    as (_ & _ & _ & _ & _ & H2 & _).
  split.
  - apply H1. split; [by vm_compute|]. split; [by vm_compute|].
    left. by vm_compute.
  - apply H2. split; [by vm_compute|]. split; [by vm_compute|].
    right. split; [by vm_compute|]. right. split; by vm_compute.
Defined.
